(** * The ChromaDB vector-store adapter and the OpenRouter embedding provider

    A shallow embedding of [ChromaDBVectorDatabase] (the vector-store adapter)
    and of [OpenRouterEmbedding] (the embedding provider), and the properties
    of the retrieval core that hold, or fail, on them.

    Conventions.
    - A JavaScript string is a [string] whose characters are UTF-16 code
      units in the range 0..255.
    - A JavaScript number is a rational ([Q]) or, where the code only ever
      produces integers, an integer ([Z]); [NaN] is an absent value and
      floating-point rounding is not modelled.
    - A JavaScript object is an association list in property order; the
      place integer-like keys take in that order is not modelled.
    - An [async] method is a state transformer: it receives the state of the
      object and of the remote service and returns a completion (a value or
      a thrown error) with the state it leaves behind.  A thrown error does
      not roll the state back.
    - The ChromaDB client, the HTTP service behind [fetch], [JSON.parse] and
      [parseInt] are not part of the program: they are interfaces the
      program is written against, and every general theorem holds for all
      their implementations.  Reference implementations are given for closed
      examples. *)

From Stdlib Require Import QArith ZArith String Ascii List Lqa Lia.
From stdpp Require Import gmap strings list pretty.

Local Open Scope string_scope.

Set Warnings "-register-all".

(** ** JavaScript values *)

Module Js.

Inductive JsValue : Type :=
| JNull
| JBool (b : bool)
| JNum (q : Q)
| JStr (s : string)
| JArr (items : list JsValue)
| JObj (props : list (string * JsValue)).

Abbreviation JsObject := (list (string * JsValue)).

(** [o[k]] on own properties. *)
Fixpoint obj_get (k : string) (o : JsObject) : option JsValue :=
  match o with
  | [] => None
  | (k', v) :: o' => if String.eqb k k' then Some v else obj_get k o'
  end.

(** Defining property [k]: an existing property keeps its place. *)
Fixpoint obj_set (k : string) (v : JsValue) (o : JsObject) : JsObject :=
  match o with
  | [] => [(k, v)]
  | (k', v') :: o' =>
      if String.eqb k k' then (k, v) :: o' else (k', v') :: obj_set k v o'
  end.

(** [{ ...target, ...source }]. *)
Definition obj_spread (target source : JsObject) : JsObject :=
  fold_left (fun acc kv => obj_set (fst kv) (snd kv) acc) source target.

(** Truthiness; [None] is [undefined]. *)
Definition truthy (v : option JsValue) : bool :=
  match v with
  | None | Some JNull => false
  | Some (JBool b) => b
  | Some (JNum q) => negb (Qeq_bool q 0)
  | Some (JStr s) => negb (String.eqb s "")
  | Some (JArr _) | Some (JObj _) => true
  end.

(** [v || d]. *)
Definition or_else (v : option JsValue) (d : JsValue) : JsValue :=
  match v with
  | Some x => if truthy v then x else d
  | None => d
  end.

(** [s || d] on an optional string. *)
Definition str_or (s : option string) (d : string) : string :=
  match s with
  | Some x => if String.eqb x "" then d else x
  | None => d
  end.

(** [n || d] on an optional number. *)
Definition num_or (n : option Q) (d : Q) : Q :=
  match n with
  | Some x => if Qeq_bool x 0 then d else x
  | None => d
  end.

Definition int_or (n : option Z) (d : Z) : Z :=
  match n with
  | Some x => if Z.eqb x 0 then d else x
  | None => d
  end.

(** [s.includes(needle)]. *)
Fixpoint includes (s needle : string) : bool :=
  String.prefix needle s ||
  match s with
  | "" => false
  | String _ s' => includes s' needle
  end.

(** [s.split(sep)] for a one-character separator. *)
Fixpoint split (sep : ascii) (s : string) : list string :=
  match s with
  | "" => [""]
  | String c s' =>
      if Ascii.eqb c sep then "" :: split sep s'
      else match split sep s' with
           | [] => [String c ""]
           | p :: ps => String c p :: ps
           end
  end.

(** White space of [String.prototype.trim] among the code units 0..255:
    TAB, LF, VT, FF, CR, SPACE and NBSP. *)
Definition is_white_space (c : ascii) : bool :=
  let n := nat_of_ascii c in
  ((9 <=? n)%nat && (n <=? 13)%nat) || (n =? 32)%nat || (n =? 160)%nat.

Fixpoint trimStart (s : string) : string :=
  match s with
  | "" => ""
  | String c s' => if is_white_space c then trimStart s' else s
  end.

Fixpoint trimEnd (s : string) : string :=
  match s with
  | "" => ""
  | String c s' =>
      match trimEnd s' with
      | "" => if is_white_space c then "" else String c ""
      | t => String c t
      end
  end.

Definition trim (s : string) : string := trimEnd (trimStart s).

(** The number of occurrences of [c] in [s]. *)
Fixpoint count_char (c : ascii) (s : string) : nat :=
  match s with
  | "" => O
  | String c' s' => if Ascii.eqb c' c then S (count_char c s') else count_char c s'
  end.

(** A thrown value: an [Error] and its optional [message]. *)
Record JsError : Type := mkError { message : option string }.

Definition Error (msg : string) : JsError := mkError (Some msg).

(** [error.message?.includes(needle)], as a condition. *)
Definition message_includes (e : JsError) (needle : string) : bool :=
  match message e with
  | Some m => includes m needle
  | None => false
  end.

(** The builtins the program calls.  [JSON_parse] returns [None] where
    [JSON.parse] throws; [parseInt] takes a possibly undefined value and
    returns [None] for [NaN]. *)
Class Runtime : Type := {
  JSON_parse : string -> option JsValue;
  parseInt : option JsValue -> option Z
}.

End Js.

Import Js.

(** ** Completions and asynchronous methods *)

Inductive Completion (A : Type) : Type :=
| Return (v : A)
| Throw (e : JsError).

Arguments Return {A} v.
Arguments Throw {A} e.

Definition Async (S A : Type) : Type := S -> Completion A * S.

Definition ret {S A} (v : A) : Async S A := fun s => (Return v, s).

Definition throw {S A} (e : JsError) : Async S A := fun s => (Throw e, s).

Definition bind {S A B} (m : Async S A) (k : A -> Async S B) : Async S B :=
  fun s =>
    match m s with
    | (Return v, s') => k v s'
    | (Throw e, s') => (Throw e, s')
    end.

(** [try { m } catch (e) { h e }]. *)
Definition try_catch {S A} (m : Async S A) (h : JsError -> Async S A) : Async S A :=
  fun s =>
    match m s with
    | (Return v, s') => (Return v, s')
    | (Throw e, s') => h e s'
    end.

Notation "'await' x ':=' m 'in' k" := (bind m (fun x => k))
  (at level 10, x name, m at level 100, k at level 200).

Notation "'await_' m 'in' k" := (bind m (fun _ => k))
  (at level 10, m at level 100, k at level 200).

(** ** The embedding provider *)

Module OpenRouter.

Record OpenRouterEmbeddingConfig : Type := {
  apiKey : string;
  baseUrl : option string;
  model : string
}.

Record EmbeddingVector : Type := {
  vector : list Q;
  dimension : Z
}.

(** The request [embedBatch] sends; [body] is the object it stringifies. *)
Record EmbeddingsBody : Type := {
  body_model : string;
  body_input : list string
}.

Record FetchRequest : Type := {
  url : string;
  method : string;
  headers : list (string * string);
  body : EmbeddingsBody
}.

(** The reply, at the shape the code casts it to: [data.data] is a list of
    items with an [embedding]. *)
Record EmbeddingItem : Type := { embedding : list Q }.

Record EmbeddingsReply : Type := { data : list EmbeddingItem }.

Record Response : Type := {
  ok : bool;
  status : Z;
  statusText : string;
  json : Completion EmbeddingsReply
}.

(** The HTTP service behind [fetch], with its own state [N]. *)
Class Http (N : Type) : Type := {
  fetch : FetchRequest -> Async N Response
}.

(** The abstract base class [Embedding] is not among the sources: its
    [preprocessTexts], which reads [maxTokens], is a parameter. *)
Class EmbeddingBase : Type := {
  preprocessTexts : Z -> list string -> list string
}.

Definition maxTokens : Z := 8192.

Section Provider.

Context {N : Type} `{Http N} `{EmbeddingBase}.

Definition embeddings_request (config : OpenRouterEmbeddingConfig)
    (processedTexts : list string) : FetchRequest :=
  let baseUrl := str_or (baseUrl config) "https://openrouter.ai/api/v1" in
  {| url := baseUrl ++ "/embeddings";
     method := "POST";
     headers :=
       [("Authorization", "Bearer " ++ apiKey config);
        ("Content-Type", "application/json");
        ("HTTP-Referer", "https://github.com/zilliztech/claude-context");
        ("X-Title", "Claude Context")];
     body := {| body_model := model config; body_input := processedTexts |} |}.

Definition embedBatch (config : OpenRouterEmbeddingConfig) (texts : list string)
    : Async N (list EmbeddingVector) :=
  let processedTexts := preprocessTexts maxTokens texts in
  await response := fetch (embeddings_request config processedTexts) in
  if negb (ok response) then
    throw (Error ("OpenRouter API error: " ++ pretty (status response) ++ " "
                  ++ statusText response))
  else
    await reply := (fun n => (json response, n)) in
    ret (map (fun item =>
                {| vector := embedding item;
                   dimension := Z.of_nat (length (embedding item)) |})
             (data reply)).

(** [embeddings[0]] is [undefined] on an empty list. *)
Definition embed (config : OpenRouterEmbeddingConfig) (text : string)
    : Async N (option EmbeddingVector) :=
  await embeddings := embedBatch config [text] in
  ret (head embeddings).

Definition modelDimensions : list (string * Z) :=
  [("nomic-ai/nomic-embed-text-v1.5", 768%Z);
   ("nomic-ai/nomic-embed-text-v1", 768%Z);
   ("text-embedding-3-small", 1536%Z);
   ("text-embedding-3-large", 3072%Z);
   ("text-embedding-ada-002", 1536%Z);
   ("voyage-01", 1024%Z);
   ("voyage-code-2", 1536%Z);
   ("voyage-code-3", 1536%Z);
   ("gte-large", 1024%Z);
   ("gte-base", 768%Z);
   ("gte-small", 384%Z);
   ("bge-large-en-v1.5", 1024%Z);
   ("bge-base-en-v1.5", 768%Z);
   ("bge-small-en-v1.5", 384%Z);
   ("mxbai-embed-large", 1024%Z);
   ("mxbai-embed-base", 768%Z)].

Fixpoint table_get (k : string) (t : list (string * Z)) : option Z :=
  match t with
  | [] => None
  | (k', v) :: t' => if String.eqb k k' then Some v else table_get k t'
  end.

(** The properties an object literal inherits from [Object.prototype]; each
    is a function or an object, hence truthy. *)
Definition object_prototype_keys : list string :=
  ["constructor"; "__defineGetter__"; "__defineSetter__"; "hasOwnProperty";
   "__lookupGetter__"; "__lookupSetter__"; "isPrototypeOf";
   "propertyIsEnumerable"; "toString"; "valueOf"; "__proto__";
   "toLocaleString"].

Definition inherited (k : string) : bool :=
  existsb (String.eqb k) object_prototype_keys.

(** What [modelDimensions[model] || 1536] evaluates to: a number, or the
    inherited property when [model] names one. *)
Inductive DimensionValue : Type :=
| Dimension (n : Z)
| InheritedProperty (name : string).

Definition getDimension (config : OpenRouterEmbeddingConfig) : DimensionValue :=
  match table_get (model config) modelDimensions with
  | Some n => Dimension (int_or (Some n) 1536)
  | None =>
      if inherited (model config) then InheritedProperty (model config)
      else Dimension 1536
  end.

Definition detectDimension (config : OpenRouterEmbeddingConfig)
    (testText : option string) : Async N DimensionValue :=
  ret (getDimension config).

(** The vector [embedBatch] makes of an item of the reply. *)
Definition as_vector (item : EmbeddingItem) : EmbeddingVector :=
  {| vector := embedding item; dimension := Z.of_nat (length (embedding item)) |}.

Definition getProvider : string := "OpenRouter".

Definition getSupportedModels : list string :=
  ["nomic-ai/nomic-embed-text-v1.5"; "nomic-ai/nomic-embed-text-v1";
   "text-embedding-3-small"; "text-embedding-3-large";
   "text-embedding-ada-002"; "voyage-01"; "voyage-code-2"; "voyage-code-3";
   "gte-large"; "gte-base"; "gte-small"; "bge-large-en-v1.5";
   "bge-base-en-v1.5"; "bge-small-en-v1.5"; "mxbai-embed-large";
   "mxbai-embed-base"].

End Provider.

End OpenRouter.

(** ** The vector-store adapter *)

Module Chroma.

(** *** The interface types ([./types] is not among the sources; the fields
    are those the adapter reads and writes) *)

(** [relativePath] and [fileExtension] are strings in the interface; [search]
    fills them with whatever the stored metadata holds, so they are values. *)
Record VectorDocument : Type := {
  doc_id : string;
  vector : list Q;
  content : string;
  relativePath : JsValue;
  startLine : Z;
  endLine : Z;
  fileExtension : JsValue;
  metadata : JsObject
}.

Record SearchOptions : Type := {
  topK : option Z;
  filter : option JsObject
}.

Definition default_SearchOptions : SearchOptions :=
  {| topK := None; filter := None |}.

Record VectorSearchResult : Type := {
  document : VectorDocument;
  score : Q
}.

(** [data] is [number[] | string]. *)
Inductive RequestData : Type :=
| DataVector (v : list Q)
| DataText (s : string).

Record HybridSearchRequest : Type := {
  data : RequestData;
  anns_field : string;
  limit : Z
}.

Record HybridSearchOptions : Type := {
  options_limit : option Z
}.

Record HybridSearchResult : Type := {
  hybrid_document : VectorDocument;
  hybrid_score : Q
}.

(** *** The ChromaDB client *)

Inductive IncludeEnum : Type :=
| Metadatas
| Documents
| Distances.

Record CreateCollectionParams : Type := {
  create_name : string;
  create_metadata : JsObject
}.

Record AddParams : Type := {
  ids : list string;
  embeddings : list (list Q);
  metadatas : list JsObject;
  documents : list string
}.

Record QueryParams : Type := {
  queryEmbeddings : list (list Q);
  nResults : Z;
  where_ : option JsObject;
  query_include : list IncludeEnum
}.

Record QueryResponse : Type := {
  res_ids : option (list (list string));
  res_metadatas : option (list (list (option JsObject)));
  res_documents : option (list (list (option string)));
  res_distances : option (list (list Q))
}.

Record GetParams : Type := {
  get_where : option JsValue;
  get_limit : Z;
  get_include : list IncludeEnum
}.

Record GetResponse : Type := {
  got_ids : option (list string);
  got_metadatas : option (list (option JsObject));
  got_documents : option (list (option string))
}.

(** An entry of [client.listCollections()]: a name, or an object. *)
Inductive ListedCollection : Type :=
| ListedName (name : string)
| ListedObject (o : JsObject).

(** The client and its collection handles: [B] is the state of the client
    and of the server behind it, [Col] the type of collection handles. *)
Class ChromaClient (B Col : Type) : Type := {
  client_createCollection : CreateCollectionParams -> Async B Col;
  client_getOrCreateCollection : string -> Async B Col;
  client_deleteCollection : string -> Async B unit;
  client_listCollections : Async B (list ListedCollection);
  collection_add : Col -> AddParams -> Async B unit;
  collection_query : Col -> QueryParams -> Async B QueryResponse;
  collection_get : Col -> GetParams -> Async B GetResponse;
  collection_delete : Col -> list string -> Async B unit
}.

(** *** The adapter *)

Record ChromaDBVectorDatabase (B Col : Type) : Type := {
  client : B;
  collections : gmap string Col
}.

Arguments client {B Col} _.
Arguments collections {B Col} _.

Definition TypeError (msg : string) : JsError := Error msg.

Section Adapter.

Context {B Col : Type} `{ChromaClient B Col} `{Runtime}.

Abbreviation Db := (ChromaDBVectorDatabase B Col).

(** A call through [this.client] or a collection handle. *)
Definition call {A} (f : Async B A) : Async Db A :=
  fun this =>
    let '(r, b) := f (client this) in
    (r, {| client := b; collections := collections this |}).

Definition collections_set (name : string) (collection : Col) : Async Db unit :=
  fun this =>
    (Return tt,
     {| client := client this;
        collections := <[name := collection]> (collections this) |}).

Definition collections_delete (name : string) : Async Db unit :=
  fun this =>
    (Return tt,
     {| client := client this; collections := delete name (collections this) |}).

Definition collection_metadata (collectionName : string) (dimension : Z)
    (description : option string) : JsObject :=
  [("description", JStr (str_or description ("Collection for " ++ collectionName)));
   ("dimension", JStr (pretty dimension))].

Definition createCollection (collectionName : string) (dimension : Z)
    (description : option string) : Async Db unit :=
  try_catch
    (await collection :=
       call (client_createCollection
               {| create_name := collectionName;
                  create_metadata :=
                    collection_metadata collectionName dimension description |}) in
     collections_set collectionName collection)
    (fun error =>
       if message_includes error "already exists" then
         await collection := call (client_getOrCreateCollection collectionName) in
         collections_set collectionName collection
       else throw error).

Definition createHybridCollection (collectionName : string) (dimension : Z)
    (description : option string) : Async Db unit :=
  createCollection collectionName dimension description.

Definition dropCollection (collectionName : string) : Async Db unit :=
  try_catch
    (await_ call (client_deleteCollection collectionName) in
     collections_delete collectionName)
    (fun error =>
       if negb (message_includes error "not found") then throw error
       else ret tt).

Definition hasCollection (collectionName : string) : Async Db bool :=
  try_catch
    (await_ call (client_getOrCreateCollection collectionName) in ret true)
    (fun _ => ret false).

(** [(col as any).name || col]. *)
Definition listed_name (col : ListedCollection) : JsValue :=
  match col with
  | ListedName s => JStr s
  | ListedObject o => or_else (obj_get "name" o) (JObj o)
  end.

Definition listCollections : Async Db (list JsValue) :=
  await collections := call client_listCollections in
  ret (map listed_name collections).

(** [this.collections.get(collectionName)!] after the fallback creation; the
    caller's method call on [undefined] is the [TypeError]. *)
Definition getOrCreateCollection (collectionName : string) : Async Db Col :=
  fun this =>
    match collections this !! collectionName with
    | Some collection => (Return collection, this)
    | None =>
        try_catch
          (await collection := call (client_getOrCreateCollection collectionName) in
           await_ collections_set collectionName collection in
           ret collection)
          (fun _ =>
             await_ createCollection collectionName 1536 None in
             fun this' =>
               match collections this' !! collectionName with
               | Some collection => (Return collection, this')
               | None =>
                   (Throw (TypeError "Cannot read properties of undefined"), this')
               end)
          this
    end.

Definition document_metadata (doc : VectorDocument) : JsObject :=
  obj_spread
    [("content", JStr (content doc));
     ("relativePath", relativePath doc);
     ("startLine", JStr (pretty (startLine doc)));
     ("endLine", JStr (pretty (endLine doc)));
     ("fileExtension", fileExtension doc)]
    (metadata doc).

Definition add_params (documents : list VectorDocument) : AddParams :=
  {| ids := map doc_id documents;
     embeddings := map vector documents;
     metadatas := map document_metadata documents;
     documents := map content documents |}.

Definition insert (collectionName : string) (documents : list VectorDocument)
    : Async Db unit :=
  await collection := getOrCreateCollection collectionName in
  call (collection_add collection (add_params documents)).

Definition insertHybrid (collectionName : string) (documents : list VectorDocument)
    : Async Db unit :=
  insert collectionName documents.

Definition buildWhereClause (filter : option JsObject) : option JsObject :=
  match filter with
  | None => None
  | Some entries =>
      Some (fold_left
              (fun whereClause kv =>
                 (* assigning to [__proto__] sets the prototype, not a property *)
                 if String.eqb (fst kv) "__proto__" then whereClause
                 else obj_set (fst kv) (JObj [("$eq", snd kv)]) whereClause)
              entries [])
  end.

Definition parseFilterExpression (filter : string) : option JsValue :=
  match JSON_parse filter with
  | Some v => Some v
  | None =>
      match split "=" filter with
      | [key; value] => Some (JObj [(trim key, JObj [("$eq", JStr (trim value))])])
      | _ => None
      end
  end.

(** [xs?.[0]?.[index]]. *)
Definition at_row0 {A} (xs : option (list (list A))) (index : nat) : option A :=
  match xs with
  | Some (row :: _) => row !! index
  | _ => None
  end.

(** [xs?.[index]]. *)
Definition at_index {A} (xs : option (list A)) (index : nat) : option A :=
  match xs with
  | Some row => row !! index
  | None => None
  end.

(** One element of [results.metadatas[0].map((metadata, index) => ...)];
    reading a property of a [null] metadata throws.  The subtraction of the
    score is that of [Q] and exact, where the program's is rounded to a
    double: two distinct distances may then give the same score, and only
    the order facts that survive a monotone rounding are stated of it. *)
Definition search_result (queryVector : list Q) (results : QueryResponse)
    (index : nat) (metadata : option JsObject) : Completion VectorSearchResult :=
  match metadata with
  | None => Throw (TypeError "Cannot read properties of null (reading 'relativePath')")
  | Some metadata =>
      Return
        {| document :=
             {| doc_id := str_or (at_row0 (res_ids results) index) "";
                vector := queryVector;
                content :=
                  str_or (mjoin (at_row0 (res_documents results) index)) "";
                relativePath := or_else (obj_get "relativePath" metadata) (JStr "");
                startLine := int_or (parseInt (obj_get "startLine" metadata)) 0;
                endLine := int_or (parseInt (obj_get "endLine" metadata)) 0;
                fileExtension := or_else (obj_get "fileExtension" metadata) (JStr "");
                metadata := metadata |};
           score := (1 - num_or (at_row0 (res_distances results) index) 0)%Q |}
  end.

(** [xs.map((x, index) => f index x)] for a callback that may throw. *)
Fixpoint map_from {A R} (f : nat -> A -> Completion R) (index : nat) (xs : list A)
    : Completion (list R) :=
  match xs with
  | [] => Return []
  | x :: xs' =>
      match f index x with
      | Throw e => Throw e
      | Return r =>
          match map_from f (S index) xs' with
          | Throw e => Throw e
          | Return rs => Return (r :: rs)
          end
      end
  end.

Definition query_params (queryVector : list Q) (options : SearchOptions) : QueryParams :=
  {| queryEmbeddings := [queryVector];
     nResults := int_or (topK options) 10;
     where_ := buildWhereClause (filter options);
     query_include := [Metadatas; Documents; Distances] |}.

Definition search (collectionName : string) (queryVector : list Q)
    (options : SearchOptions) : Async Db (list VectorSearchResult) :=
  await collection := getOrCreateCollection collectionName in
  await results := call (collection_query collection (query_params queryVector options)) in
  match res_metadatas results, res_documents results, res_distances results with
  | Some metadatas, Some _, Some _ =>
      match metadatas with
      | [] => throw (TypeError "Cannot read properties of undefined (reading 'map')")
      | row :: _ => fun this => (map_from (search_result queryVector results) 0 row, this)
      end
  | _, _, _ => ret []
  end.

(** [denseRequest.data as number[]]: the cast is unchecked; a request whose
    [anns_field] is ['vector'] carries a vector, and a text payload is read
    as the empty vector. *)
Definition as_number_array (d : RequestData) : list Q :=
  match d with
  | DataVector v => v
  | DataText _ => []
  end.

Definition hybridSearch (collectionName : string)
    (searchRequests : list HybridSearchRequest) (options : HybridSearchOptions)
    : Async Db (list HybridSearchResult) :=
  match List.find (fun req => String.eqb (anns_field req) "vector") searchRequests with
  | None => throw (Error "Dense vector search request is required for hybrid search")
  | Some denseRequest =>
      await denseResults :=
        search collectionName (as_number_array (data denseRequest))
          {| topK := Some (int_or (options_limit options) (limit denseRequest));
             filter := None |} in
      ret (map (fun result =>
                  {| hybrid_document := document result;
                     hybrid_score := score result |})
               denseResults)
  end.

Definition delete (collectionName : string) (ids : list string) : Async Db unit :=
  await collection := getOrCreateCollection collectionName in
  call (collection_delete collection ids).

Definition get_params (filter : string) (limit : option Z) : GetParams :=
  {| get_where := parseFilterExpression filter;
     get_limit := int_or limit 100;
     get_include := [Metadatas; Documents] |}.

Definition query_row (results : GetResponse) (index : nat)
    (metadata : option JsObject) : JsObject :=
  obj_spread
    [("id", JStr (str_or (at_index (got_ids results) index) ""));
     ("content", JStr (str_or (mjoin (at_index (got_documents results) index)) ""))]
    (default [] metadata).

Definition query (collectionName : string) (filter : string)
    (outputFields : list string) (limit : option Z) : Async Db (list JsObject) :=
  await collection := getOrCreateCollection collectionName in
  await results := call (collection_get collection (get_params filter limit)) in
  match got_metadatas results, got_documents results with
  | Some metadatas, Some _ => ret (imap (query_row results) metadatas)
  | _, _ => ret []
  end.

Definition checkCollectionLimit : Async Db bool := ret true.

(** *** Views used in the statements below *)

(** The adapter with the client in state [b]. *)
Definition with_client (b : B) (this : Db) : Db :=
  {| client := b; collections := collections this |}.

(** The adapter after it has cached [col] under [name], the client being in
    state [b]. *)
Definition cached (name : string) (col : Col) (b : B) (this : Db) : Db :=
  {| client := b; collections := <[name := col]> (collections this) |}.

(** The dense request [hybridSearch] looks for, the options it searches
    with, and the shape it gives each result. *)
Definition is_dense (req : HybridSearchRequest) : bool :=
  String.eqb (anns_field req) "vector".

Definition dense_options (options : HybridSearchOptions) (dense : HybridSearchRequest)
    : SearchOptions :=
  {| topK := Some (int_or (options_limit options) (limit dense)); filter := None |}.

Definition as_hybrid (r : VectorSearchResult) : HybridSearchResult :=
  {| hybrid_document := document r; hybrid_score := score r |}.

(** The equality test [buildWhereClause] makes of a filter entry. *)
Definition equality_test (kv : string * JsValue) : string * JsValue :=
  (fst kv, JObj [("$eq", snd kv)]).

(** A method that keeps a property of the client's state, and a client
    request that does. *)
Definition client_keeps (Inv : B -> Prop) {A} (f : Async B A) : Prop :=
  forall b, Inv b -> Inv (snd (f b)).

Definition keeps (Inv : B -> Prop) {A} (m : Async Db A) : Prop :=
  forall this, Inv (client this) -> Inv (client (snd (m this))).

(** The error of reading a property of a null metadata. *)
Definition null_metadata_error : JsError :=
  TypeError "Cannot read properties of null (reading 'relativePath')".

(** One turn of the loop of [buildWhereClause]. *)
Definition where_step (whereClause : JsObject) (kv : string * JsValue) : JsObject :=
  if String.eqb (fst kv) "__proto__" then whereClause
  else obj_set (fst kv) (JObj [("$eq", snd kv)]) whereClause.

(** A method that keeps a property of the cache of handles. *)
Definition cache_keeps (P : gmap string Col -> Prop) {A} (m : Async Db A) : Prop :=
  forall this, P (collections this) -> P (collections (snd (m this))).

(** The request [createCollection] sends. *)
Definition create_params (name : string) (dimension : Z) (description : option string)
    : CreateCollectionParams :=
  {| create_name := name;
     create_metadata := collection_metadata name dimension description |}.

(** The calls of the adapter's public interface, and the state each leaves. *)
Inductive Operation : Type :=
| OpCreateCollection (name : string) (dimension : Z) (description : option string)
| OpCreateHybridCollection (name : string) (dimension : Z) (description : option string)
| OpDropCollection (name : string)
| OpHasCollection (name : string)
| OpListCollections
| OpInsert (name : string) (documents : list VectorDocument)
| OpInsertHybrid (name : string) (documents : list VectorDocument)
| OpSearch (name : string) (queryVector : list Q) (options : SearchOptions)
| OpHybridSearch (name : string) (requests : list HybridSearchRequest)
    (options : HybridSearchOptions)
| OpDelete (name : string) (ids : list string)
| OpQuery (name : string) (filter : string) (outputFields : list string)
    (limit : option Z)
| OpCheckCollectionLimit.

(** The collection a call names, if it names one. *)
Definition operation_name (op : Operation) : option string :=
  match op with
  | OpCreateCollection n _ _ | OpCreateHybridCollection n _ _ | OpDropCollection n
  | OpHasCollection n | OpInsert n _ | OpInsertHybrid n _ | OpSearch n _ _
  | OpHybridSearch n _ _ | OpDelete n _ | OpQuery n _ _ _ => Some n
  | OpListCollections | OpCheckCollectionLimit => None
  end.

Definition after (op : Operation) (this : Db) : Db :=
  match op with
  | OpCreateCollection n d s => snd (createCollection n d s this)
  | OpCreateHybridCollection n d s => snd (createHybridCollection n d s this)
  | OpDropCollection n => snd (dropCollection n this)
  | OpHasCollection n => snd (hasCollection n this)
  | OpListCollections => snd (listCollections this)
  | OpInsert n docs => snd (insert n docs this)
  | OpInsertHybrid n docs => snd (insertHybrid n docs this)
  | OpSearch n q o => snd (search n q o this)
  | OpHybridSearch n rs o => snd (hybridSearch n rs o this)
  | OpDelete n ids => snd (delete n ids this)
  | OpQuery n f fs l => snd (query n f fs l this)
  | OpCheckCollectionLimit => snd (checkCollectionLimit this)
  end.

End Adapter.

End Chroma.

(** ** Reference implementations of the interfaces

    Used to run the program on concrete inputs.  No general theorem depends
    on them. *)

Module Reference.

(** *** [JSON.parse]: a recursive-descent parser of the JSON grammar.
    A [\u] escape above [00FF] has no code unit in this string model and is
    rejected. *)

Definition json_ws (c : ascii) : bool :=
  let n := nat_of_ascii c in
  (n =? 32)%nat || (n =? 9)%nat || (n =? 10)%nat || (n =? 13)%nat.

Fixpoint skip_ws (s : string) : string :=
  match s with
  | "" => ""
  | String c s' => if json_ws c then skip_ws s' else s
  end.

Fixpoint strip_prefix (p s : string) : option string :=
  match p, s with
  | "", _ => Some s
  | String a p', String b s' => if Ascii.eqb a b then strip_prefix p' s' else None
  | String _ _, "" => None
  end.

Definition digit_of (c : ascii) : option Z :=
  let n := nat_of_ascii c in
  if (48 <=? n)%nat && (n <=? 57)%nat then Some (Z.of_nat (n - 48)) else None.

Definition hex_digit_of (c : ascii) : option Z :=
  let n := nat_of_ascii c in
  if (48 <=? n)%nat && (n <=? 57)%nat then Some (Z.of_nat (n - 48))
  else if (65 <=? n)%nat && (n <=? 70)%nat then Some (Z.of_nat (n - 55))
  else if (97 <=? n)%nat && (n <=? 102)%nat then Some (Z.of_nat (n - 87))
  else None.

(** The longest run of digits in base [base]: its value, its length and the
    rest of the input. *)
Fixpoint digits (digit : ascii -> option Z) (base : Z) (s : string) (acc : Z)
    (count : nat) : Z * nat * string :=
  match s with
  | "" => (acc, count, "")
  | String c s' =>
      match digit c with
      | Some d => digits digit base s' (acc * base + d)%Z (S count)
      | None => (acc, count, s)
      end
  end.

Definition parse_exponent (s : string) : option (Z * string) :=
  match s with
  | String c s1 =>
      if Ascii.eqb c "e" || Ascii.eqb c "E" then
        let '(negative, s2) :=
          match s1 with
          | String "-" s' => (true, s')
          | String "+" s' => (false, s')
          | _ => (false, s1)
          end in
        let '(e, n, s3) := digits digit_of 10 s2 0 0 in
        match n with
        | O => None
        | _ => Some (if negative then (- e)%Z else e, s3)
        end
      else Some (0%Z, s)
  | "" => Some (0%Z, s)
  end.

Definition parse_number (s : string) : option (Q * string) :=
  let '(negative, s1) :=
    match s with
    | String "-" s' => (true, s')
    | _ => (false, s)
    end in
  let '(int_part, n, s2) := digits digit_of 10 s1 0 0 in
  let leading_zero :=
    match s1 with
    | String "0" _ => (1 <? n)%nat
    | _ => false
    end in
  if (n =? 0)%nat || leading_zero then None
  else
    let fraction :=
      match s2 with
      | String "." s' =>
          let '(f, fn, s3) := digits digit_of 10 s' 0 0 in
          match fn with
          | O => None
          | _ => Some (f, fn, s3)
          end
      | _ => Some (0%Z, O, s2)
      end in
    match fraction with
    | None => None
    | Some (f, fn, s3) =>
        match parse_exponent s3 with
        | None => None
        | Some (e, s4) =>
            let numerator := (int_part * 10 ^ Z.of_nat fn + f)%Z in
            let signed := if negative then (- numerator)%Z else numerator in
            let shift := (e - Z.of_nat fn)%Z in
            let q :=
              if (0 <=? shift)%Z then Qmake (signed * 10 ^ shift) 1
              else Qmake signed (Z.to_pos (10 ^ (- shift))) in
            Some (Qred q, s4)
        end
    end.

Definition double_quote : ascii := ascii_of_nat 34.

Definition simple_escape (c : ascii) : option ascii :=
  if Ascii.eqb c double_quote then Some double_quote
  else if Ascii.eqb c "\" then Some "\"%char
  else if Ascii.eqb c "/" then Some "/"%char
  else if Ascii.eqb c "b" then Some (ascii_of_nat 8)
  else if Ascii.eqb c "f" then Some (ascii_of_nat 12)
  else if Ascii.eqb c "n" then Some (ascii_of_nat 10)
  else if Ascii.eqb c "r" then Some (ascii_of_nat 13)
  else if Ascii.eqb c "t" then Some (ascii_of_nat 9)
  else None.

Definition hex4 (a b c d : ascii) : option Z :=
  match hex_digit_of a, hex_digit_of b, hex_digit_of c, hex_digit_of d with
  | Some x, Some y, Some z, Some w => Some (((x * 16 + y) * 16 + z) * 16 + w)%Z
  | _, _, _, _ => None
  end.

Definition cons_char (c : ascii) (r : option (string * string)) : option (string * string) :=
  match r with
  | Some (s, rest) => Some (String c s, rest)
  | None => None
  end.

(** The characters of a string literal after its opening quote. *)
Fixpoint parse_string_body (s : string) : option (string * string) :=
  match s with
  | "" => None
  | String c s' =>
      if Ascii.eqb c double_quote then Some ("", s')
      else if Ascii.eqb c "\" then
        match s' with
        | String e s'' =>
            match simple_escape e with
            | Some ch => cons_char ch (parse_string_body s'')
            | None =>
                if Ascii.eqb e "u" then
                  match s'' with
                  | String h1 (String h2 (String h3 (String h4 rest))) =>
                      match hex4 h1 h2 h3 h4 with
                      | Some code =>
                          if (code <? 256)%Z then
                            cons_char (ascii_of_nat (Z.to_nat code))
                                      (parse_string_body rest)
                          else None
                      | None => None
                      end
                  | _ => None
                  end
                else None
            end
        | "" => None
        end
      else if (nat_of_ascii c <? 32)%nat then None
      else cons_char c (parse_string_body s')
  end.

Fixpoint parse_value (fuel : nat) (s : string) : option (JsValue * string) :=
  match fuel with
  | O => None
  | S fuel' =>
      match skip_ws s with
      | String "{" s1 =>
          match skip_ws s1 with
          | String "}" s2 => Some (JObj [], s2)
          | _ =>
              match parse_members fuel' s1 with
              | Some (props, s2) =>
                  Some (JObj (fold_left (fun o kv => obj_set (fst kv) (snd kv) o)
                                        props []), s2)
              | None => None
              end
          end
      | String "[" s1 =>
          match skip_ws s1 with
          | String "]" s2 => Some (JArr [], s2)
          | _ =>
              match parse_elements fuel' s1 with
              | Some (items, s2) => Some (JArr items, s2)
              | None => None
              end
          end
      | String c s1 as s0 =>
          if Ascii.eqb c double_quote then
            match parse_string_body s1 with
            | Some (str, s2) => Some (JStr str, s2)
            | None => None
            end
          else
            match strip_prefix "true" s0, strip_prefix "false" s0, strip_prefix "null" s0 with
            | Some s2, _, _ => Some (JBool true, s2)
            | _, Some s2, _ => Some (JBool false, s2)
            | _, _, Some s2 => Some (JNull, s2)
            | None, None, None =>
                match parse_number s0 with
                | Some (q, s2) => Some (JNum q, s2)
                | None => None
                end
            end
      | "" => None
      end
  end
with parse_elements (fuel : nat) (s : string) : option (list JsValue * string) :=
  match fuel with
  | O => None
  | S fuel' =>
      match parse_value fuel' s with
      | Some (v, s1) =>
          match skip_ws s1 with
          | String "," s2 =>
              match parse_elements fuel' s2 with
              | Some (vs, s3) => Some (v :: vs, s3)
              | None => None
              end
          | String "]" s2 => Some ([v], s2)
          | _ => None
          end
      | None => None
      end
  end
with parse_members (fuel : nat) (s : string) : option (list (string * JsValue) * string) :=
  match fuel with
  | O => None
  | S fuel' =>
      match skip_ws s with
      | String c s1 =>
          if negb (Ascii.eqb c double_quote) then None
          else
            match parse_string_body s1 with
            | Some (key, s2) =>
                match skip_ws s2 with
                | String ":" s3 =>
                    match parse_value fuel' s3 with
                    | Some (v, s4) =>
                        match skip_ws s4 with
                        | String "," s5 =>
                            match parse_members fuel' s5 with
                            | Some (kvs, s6) => Some ((key, v) :: kvs, s6)
                            | None => None
                            end
                        | String "}" s5 => Some ([(key, v)], s5)
                        | _ => None
                        end
                    | None => None
                    end
                | _ => None
                end
            | None => None
            end
      | "" => None
      end
  end.

Definition json_parse (s : string) : option JsValue :=
  match parse_value (2 * String.length s + 2) s with
  | Some (v, rest) =>
      match skip_ws rest with
      | "" => Some v
      | _ => None
      end
  | None => None
  end.

(** *** [parseInt], for the scalar values a metadata object holds: a string
    is read as an optional sign followed by decimal, or [0x] and hexadecimal,
    digits; a number is truncated towards zero. *)
Definition parse_int (v : option JsValue) : option Z :=
  match v with
  | Some (JStr s) =>
      let s0 := trimStart s in
      let '(negative, s1) :=
        match s0 with
        | String "-" s' => (true, s')
        | String "+" s' => (false, s')
        | _ => (false, s0)
        end in
      let '(value, n, _) :=
        match s1 with
        | String "0" (String x s') =>
            if Ascii.eqb x "x" || Ascii.eqb x "X" then digits hex_digit_of 16 s' 0 0
            else digits digit_of 10 s1 0 0
        | _ => digits digit_of 10 s1 0 0
        end in
      match n with
      | O => None
      | _ => Some (if negative then (- value)%Z else value)
      end
  | Some (JNum q) => Some (Z.quot (Qnum q) (Z.pos (Qden q)))
  | _ => None
  end.

#[export] Instance reference_runtime : Runtime :=
  {| JSON_parse := json_parse; parseInt := parse_int |}.

(** *** The HTTP service: answers every request with one embedding per input
    text, in order, and keeps a log of the requests it received. *)

Definition text_embedding (text : string) : list Q :=
  [inject_Z (Z.of_nat (String.length text)); 1%Q; 0%Q].

#[export] Instance reference_http : OpenRouter.Http (list OpenRouter.FetchRequest) :=
  {| OpenRouter.fetch := fun request log =>
       (Return
          {| OpenRouter.ok := true;
             OpenRouter.status := 200;
             OpenRouter.statusText := "OK";
             OpenRouter.json :=
               Return
                 {| OpenRouter.data :=
                      map (fun text => {| OpenRouter.embedding := text_embedding text |})
                          (OpenRouter.body_input (OpenRouter.body request)) |} |},
        (log ++ [request])%list) |}.

(** The base class: an empty text becomes a blank, a long one is cut at four
    characters per token. *)
#[export] Instance reference_base : OpenRouter.EmbeddingBase :=
  {| OpenRouter.preprocessTexts := fun maxTokens =>
       map (fun text =>
              if String.eqb text "" then " "
              else substring 0 (Z.to_nat (maxTokens * 4)) text) |}.

(** *** The ChromaDB server, in memory.  A collection handle is the
    collection's name.  [add] follows ChromaDB: the dimensionality of a
    collection is that of the first embedding stored in it, a batch with an
    embedding of another length or with a repeated id is rejected whole, and
    a record whose id is already stored is left as it is. *)

Import Chroma.

Record StoredRecord : Type := {
  record_id : string;
  record_embedding : list Q;
  record_metadata : JsObject;
  record_document : string
}.

Record StoredCollection : Type := {
  stored_metadata : option JsObject;
  records : list StoredRecord
}.

Abbreviation Server := (gmap string StoredCollection).

Definition missing_collection {A} (name : string) (server : Server)
    : Completion A * Server :=
  (Throw (Error ("Collection " ++ name ++ " does not exist")), server).

Definition server_create (params : CreateCollectionParams) : Async Server string :=
  fun server =>
    match server !! create_name params with
    | Some _ =>
        (Throw (Error ("Collection " ++ create_name params ++ " already exists")),
         server)
    | None =>
        (Return (create_name params),
         <[create_name params :=
             {| stored_metadata := Some (create_metadata params); records := [] |}]>
           server)
    end.

Definition server_get_or_create (name : string) : Async Server string :=
  fun server =>
    match server !! name with
    | Some _ => (Return name, server)
    | None =>
        (Return name, <[name := {| stored_metadata := None; records := [] |}]> server)
    end.

Definition server_delete_collection (name : string) : Async Server unit :=
  fun server =>
    match server !! name with
    | Some _ => (Return tt, base.delete name server)
    | None => missing_collection name server
    end.

Definition server_list : Async Server (list ListedCollection) :=
  fun server => (Return (map (fun kv => ListedName (fst kv)) (map_to_list server)), server).

Fixpoint unique_ids (l : list string) : bool :=
  match l with
  | [] => true
  | x :: l' => negb (existsb (String.eqb x) l') && unique_ids l'
  end.

Definition has_id (rs : list StoredRecord) (i : string) : bool :=
  existsb (fun r => String.eqb (record_id r) i) rs.

Fixpoint make_records (ids : list string) (embeddings : list (list Q))
    (metadatas : list JsObject) (documents : list string) : list StoredRecord :=
  match ids, embeddings, metadatas, documents with
  | i :: ids', e :: embeddings', m :: metadatas', d :: documents' =>
      {| record_id := i; record_embedding := e; record_metadata := m;
         record_document := d |}
      :: make_records ids' embeddings' metadatas' documents'
  | _, _, _, _ => []
  end.

Definition dimensionality (c : StoredCollection) (batch : list (list Q)) : nat :=
  match records c with
  | r :: _ => length (record_embedding r)
  | [] => length (hd [] batch)
  end.

Definition server_add (name : string) (params : AddParams) : Async Server unit :=
  fun server =>
    match server !! name with
    | None => missing_collection name server
    | Some c =>
        let n := length (ids params) in
        if negb ((length (embeddings params) =? n)%nat
                 && (length (metadatas params) =? n)%nat
                 && (length (documents params) =? n)%nat) then
          (Throw (Error "Unequal lengths for ids, embeddings, metadatas, documents"),
           server)
        else if (n =? 0)%nat then
          (Throw (Error "Expected IDs to be a non-empty list"), server)
        else if negb (unique_ids (ids params)) then
          (Throw (Error "Expected IDs to be unique"), server)
        else if negb (forallb (fun e => (length e =? dimensionality c (embeddings params))%nat)
                              (embeddings params)) then
          (Throw (Error "Embedding dimension does not match collection dimensionality"),
           server)
        else
          (Return tt,
           <[name :=
               {| stored_metadata := stored_metadata c;
                  records :=
                    (records c ++
                     List.filter (fun r => negb (has_id (records c) (record_id r)))
                       (make_records (ids params) (embeddings params)
                                     (metadatas params) (documents params)))%list |}]>
             server)
    end.

Definition scalar_eqb (a b : JsValue) : bool :=
  match a, b with
  | JStr x, JStr y => String.eqb x y
  | JNum x, JNum y => Qeq_bool x y
  | JBool x, JBool y => Bool.eqb x y
  | _, _ => false
  end.

(** One entry of a where clause against a metadata object; [None] when the
    entry is not an equality test. *)
Definition entry_matches (metadata : JsObject) (entry : string * JsValue) : option bool :=
  let test v :=
    match obj_get (fst entry) metadata with
    | Some x => scalar_eqb x v
    | None => false
    end in
  match snd entry with
  | JObj [("$eq", v)] => Some (test v)
  | JStr _ | JNum _ | JBool _ => Some (test (snd entry))
  | _ => None
  end.

Fixpoint where_matches (clause : JsObject) (metadata : JsObject) : option bool :=
  match clause with
  | [] => Some true
  | entry :: clause' =>
      match entry_matches metadata entry, where_matches clause' metadata with
      | Some a, Some b => Some (a && b)
      | _, _ => None
      end
  end.

Fixpoint select (clause : JsObject) (rs : list StoredRecord) : option (list StoredRecord) :=
  match rs with
  | [] => Some []
  | r :: rs' =>
      match where_matches clause (record_metadata r), select clause rs' with
      | Some keep, Some rest => Some (if keep then r :: rest else rest)
      | _, _ => None
      end
  end.

Fixpoint squared_l2 (a b : list Q) : Q :=
  match a, b with
  | x :: a', y :: b' => ((x - y) * (x - y) + squared_l2 a' b')%Q
  | _, _ => 0%Q
  end.

Definition distance (a b : list Q) : Q := Qred (squared_l2 a b).

(** Stable insertion by ascending distance. *)
Fixpoint insert_by_distance (x : StoredRecord * Q) (l : list (StoredRecord * Q))
    : list (StoredRecord * Q) :=
  match l with
  | [] => [x]
  | y :: l' =>
      if Qle_bool (snd y) (snd x) then y :: insert_by_distance x l'
      else x :: l
  end.

Definition nearest (n : nat) (q : list Q) (rs : list StoredRecord)
    : list (StoredRecord * Q) :=
  take n (fold_left (fun acc r => insert_by_distance (r, distance q (record_embedding r)) acc)
                    rs []).

Definition server_query (name : string) (params : QueryParams) : Async Server QueryResponse :=
  fun server =>
    match server !! name with
    | None => missing_collection name server
    | Some c =>
        match select (default [] (where_ params)) (records c) with
        | None => (Throw (Error "Invalid where clause"), server)
        | Some candidates =>
            if negb (forallb (fun q => (length q =? dimensionality c [q])%nat)
                             (queryEmbeddings params)) then
              (Throw (Error "Embedding dimension does not match collection dimensionality"),
               server)
            else if (nResults params <=? 0)%Z then
              (Throw (Error "Number of requested results must be positive"), server)
            else
              let rows :=
                map (fun q => nearest (Z.to_nat (nResults params)) q candidates)
                    (queryEmbeddings params) in
              (Return
                 {| res_ids := Some (map (map (fun x => record_id (fst x))) rows);
                    res_metadatas :=
                      Some (map (map (fun x => Some (record_metadata (fst x)))) rows);
                    res_documents :=
                      Some (map (map (fun x => Some (record_document (fst x)))) rows);
                    res_distances := Some (map (map snd) rows) |},
               server)
        end
    end.

Definition server_get (name : string) (params : GetParams) : Async Server GetResponse :=
  fun server =>
    match server !! name with
    | None => missing_collection name server
    | Some c =>
        let selected :=
          match get_where params with
          | None => Some (records c)
          | Some (JObj clause) => select clause (records c)
          | Some _ => None
          end in
        match selected with
        | None => (Throw (Error "Invalid where clause"), server)
        | Some rs =>
            let rs := take (Z.to_nat (get_limit params)) rs in
            (Return
               {| got_ids := Some (map record_id rs);
                  got_metadatas := Some (map (fun r => Some (record_metadata r)) rs);
                  got_documents := Some (map (fun r => Some (record_document r)) rs) |},
             server)
        end
    end.

Definition server_delete (name : string) (ids : list string) : Async Server unit :=
  fun server =>
    match server !! name with
    | None => missing_collection name server
    | Some c =>
        (Return tt,
         <[name :=
             {| stored_metadata := stored_metadata c;
                records :=
                  List.filter (fun r => negb (existsb (String.eqb (record_id r)) ids))
                              (records c) |}]>
           server)
    end.

#[export] Instance reference_client : ChromaClient Server string :=
  {| client_createCollection := server_create;
     client_getOrCreateCollection := server_get_or_create;
     client_deleteCollection := server_delete_collection;
     client_listCollections := server_list;
     collection_add := server_add;
     collection_query := server_query;
     collection_get := server_get;
     collection_delete := server_delete |}.

(** At most one stored record per collection and id. *)
Definition store_unique (server : Server) : Prop :=
  forall name c, server !! name = Some c -> NoDup (map record_id (records c)).

(** The handles in the adapter's cache are the names they are cached under. *)
Definition handles_ok (db : ChromaDBVectorDatabase Server string) : Prop :=
  forall name handle, collections db !! name = Some handle -> handle = name.




(** A fresh adapter on an empty server. *)
Definition fresh : ChromaDBVectorDatabase Server string :=
  {| client := ∅; collections := ∅ |}.

(** Running a sequence of calls and keeping the state. *)
Definition run {S A} (m : Async S A) (s : S) : S := snd (m s).

Definition result {S A} (m : Async S A) (s : S) : Completion A := fst (m s).

End Reference.

(** ** The fusion the specification describes

    Written from the specification's words, for comparison with
    [hybridSearch]: a ranked list pairs document ids with normalized scores;
    the fused score of a candidate is the weighted sum of its two scores, a
    list it is absent from contributing zero; the fused list is ordered by
    descending score, ties by ascending id, and cut to the limit after
    fusion. *)

Module Fusion.

Abbreviation Ranked := (list (string * Q)).

Definition score_in (l : Ranked) (i : string) : Q :=
  match List.find (fun x => String.eqb (fst x) i) l with
  | Some x => snd x
  | None => 0%Q
  end.

Fixpoint distinct (l : list string) : list string :=
  match l with
  | [] => []
  | x :: l' => x :: List.filter (fun y => negb (String.eqb x y)) (distinct l')
  end.

Definition candidates (dense lexical : Ranked) : list string :=
  distinct (map fst dense ++ map fst lexical)%list.

Definition fused_score (w_dense w_lexical : Q) (dense lexical : Ranked) (i : string) : Q :=
  (w_dense * score_in dense i + w_lexical * score_in lexical i)%Q.

(** [x] ranks before [y]. *)
Definition before (x y : string * Q) : bool :=
  negb (Qle_bool (snd x) (snd y))
  || (Qeq_bool (snd x) (snd y) && String.leb (fst x) (fst y)).

Fixpoint place (x : string * Q) (l : Ranked) : Ranked :=
  match l with
  | [] => [x]
  | y :: l' => if before x y then x :: l else y :: place x l'
  end.

Definition rank (l : Ranked) : Ranked := fold_right place [] l.

Definition weighted_fusion (w_dense w_lexical : Q) (dense lexical : Ranked)
    (limit : nat) : Ranked :=
  take limit
       (rank (map (fun i => (i, fused_score w_dense w_lexical dense lexical i))
                  (candidates dense lexical))).

End Fusion.

(** ** Concrete inputs *)

Module Examples.

Import Chroma Reference.

Definition doc (i : string) (v : list Q) (text : string) : VectorDocument :=
  {| doc_id := i;
     vector := v;
     content := text;
     relativePath := JStr "src/index.ts";
     startLine := 1;
     endLine := 9;
     fileExtension := JStr ".ts";
     metadata := [("language", JStr "ts")] |}.

(** An adapter whose server holds collection ["code"], declared with
    dimension 768 and still empty. *)
Definition declared_768 : ChromaDBVectorDatabase Server string :=
  run (createCollection "code" 768 None) fresh.

(** ["code"] after document ["x"] was inserted with vector [[1; 0]]. *)
Definition with_x : ChromaDBVectorDatabase Server string :=
  run (insert "code" [doc "x" [1; 0]%Q "first"]) declared_768.

(** ["code"] holding documents ["a"] and ["b"]. *)
Definition with_a_b : ChromaDBVectorDatabase Server string :=
  run (insert "code" [doc "a" [1; 0]%Q "alpha"; doc "b" [1; 1 # 2]%Q "beta needle"])
      declared_768.

Definition dense_request : HybridSearchRequest :=
  {| data := DataVector [1; 0]%Q; anns_field := "vector"; limit := 2 |}.

Definition lexical_request : HybridSearchRequest :=
  {| data := DataText "needle"; anns_field := "sparse_vector"; limit := 2 |}.

(** The two ranked lists for that query over ["code"]: by vector, ["a"]
    then ["b"]; by keyword, only ["b"] holds the word. *)
Definition dense_list : Fusion.Ranked := [("a", 1%Q); ("b", 3 # 4)].

Definition lexical_list : Fusion.Ranked := [("b", 1%Q)].

(** A client whose get-or-create is out of order. *)
Definition failing_get_or_create : ChromaClient Server string :=
  {| client_createCollection := server_create;
     client_getOrCreateCollection := fun _ server =>
       (Throw (Error "Failed to fetch"), server);
     client_deleteCollection := server_delete_collection;
     client_listCollections := server_list;
     collection_add := server_add;
     collection_query := server_query;
     collection_get := server_get;
     collection_delete := server_delete |}.

(** A client that cannot reach its server. *)
Definition offline_client : ChromaClient Server string :=
  {| client_createCollection := fun _ => throw (Error "Failed to fetch");
     client_getOrCreateCollection := fun _ => throw (Error "Failed to fetch");
     client_deleteCollection := fun _ => throw (Error "Failed to fetch");
     client_listCollections := throw (Error "Failed to fetch");
     collection_add := fun _ _ => throw (Error "Failed to fetch");
     collection_query := fun _ _ => throw (Error "Failed to fetch");
     collection_get := fun _ _ => throw (Error "Failed to fetch");
     collection_delete := fun _ _ => throw (Error "Failed to fetch") |}.

(** A client whose server reports a missing collection as "not found". *)
Definition not_found_client : ChromaClient Server string :=
  {| client_createCollection := server_create;
     client_getOrCreateCollection := server_get_or_create;
     client_deleteCollection := fun name server =>
       match server !! name with
       | Some _ => (Return tt, base.delete name server)
       | None => (Throw (Error ("Collection " ++ name ++ " not found")), server)
       end;
     client_listCollections := server_list;
     collection_add := server_add;
     collection_query := server_query;
     collection_get := server_get;
     collection_delete := server_delete |}.

(** A service that refuses the key, and one that answers with no item. *)
Definition unauthorized_http : OpenRouter.Http (list OpenRouter.FetchRequest) :=
  {| OpenRouter.fetch := fun request log =>
       (Return
          {| OpenRouter.ok := false;
             OpenRouter.status := 401;
             OpenRouter.statusText := "Unauthorized";
             OpenRouter.json := Throw (Error "Unexpected end of JSON input") |},
        (log ++ [request])%list) |}.

Definition empty_http : OpenRouter.Http (list OpenRouter.FetchRequest) :=
  {| OpenRouter.fetch := fun request log =>
       (Return
          {| OpenRouter.ok := true;
             OpenRouter.status := 200;
             OpenRouter.statusText := "OK";
             OpenRouter.json := Return {| OpenRouter.data := [] |} |},
        (log ++ [request])%list) |}.

(** A client that answers every query with a given reply. *)
Definition canned_client (reply : QueryResponse) : ChromaClient Server string :=
  {| client_createCollection := server_create;
     client_getOrCreateCollection := server_get_or_create;
     client_deleteCollection := server_delete_collection;
     client_listCollections := server_list;
     collection_add := server_add;
     collection_query := fun _ _ => ret reply;
     collection_get := server_get;
     collection_delete := server_delete |}.

(** A reply whose second entry has no metadata, and one whose second entry
    has neither id nor distance. *)
Definition reply_with_null : QueryResponse :=
  {| res_ids := Some [["x"; "y"]];
     res_metadatas := Some [[Some [("language", JStr "ts")]; None]];
     res_documents := Some [[Some "first"; Some "second"]];
     res_distances := Some [[0%Q; 1%Q]] |}.

Definition reply_with_gaps : QueryResponse :=
  {| res_ids := Some [["x"]];
     res_metadatas := Some [[Some [("language", JStr "ts")]; Some [("language", JStr "go")]]];
     res_documents := Some [[Some "first"; Some "second"]];
     res_distances := Some [[1 # 4]] |}.

(** A service that answers with the embedding of the first text only, and
    one that answers with the embeddings in reverse order. *)
Definition short_http : OpenRouter.Http (list OpenRouter.FetchRequest) :=
  {| OpenRouter.fetch := fun request log =>
       (Return
          {| OpenRouter.ok := true;
             OpenRouter.status := 200;
             OpenRouter.statusText := "OK";
             OpenRouter.json :=
               Return
                 {| OpenRouter.data :=
                      take 1
                        (map (fun text => {| OpenRouter.embedding := text_embedding text |})
                             (OpenRouter.body_input (OpenRouter.body request))) |} |},
        (log ++ [request])%list) |}.

Definition reversing_http : OpenRouter.Http (list OpenRouter.FetchRequest) :=
  {| OpenRouter.fetch := fun request log =>
       (Return
          {| OpenRouter.ok := true;
             OpenRouter.status := 200;
             OpenRouter.statusText := "OK";
             OpenRouter.json :=
               Return
                 {| OpenRouter.data :=
                      rev
                        (map (fun text => {| OpenRouter.embedding := text_embedding text |})
                             (OpenRouter.body_input (OpenRouter.body request))) |} |},
        (log ++ [request])%list) |}.

(** An adapter that still caches the handle of ["code"] while the server
    holds no such collection any more. *)
Definition stale_handle : ChromaDBVectorDatabase Server string :=
  {| client := ∅; collections := collections declared_768 |}.

(** A result list as a ranked list, and its agreement with a fused list. *)
Definition ranked_output (out : list HybridSearchResult) : Fusion.Ranked :=
  map (fun r => (doc_id (hybrid_document r), hybrid_score r)) out.

Definition same_ranking (out : list HybridSearchResult) (fused : Fusion.Ranked) : Prop :=
  Forall2 (fun r f => doc_id (hybrid_document r) = fst f /\ (hybrid_score r == snd f)%Q)
          out fused.

Definition custom_model : OpenRouter.OpenRouterEmbeddingConfig :=
  {| OpenRouter.apiKey := "key";
     OpenRouter.baseUrl := None;
     OpenRouter.model := "acme/custom-embed" |}.

End Examples.

(** ** Properties of the adapter, for every client *)

Import Chroma.

Section AdapterFacts.

Context {B Col : Type} `{ChromaClient B Col} `{Runtime}.

Implicit Types (this : ChromaDBVectorDatabase B Col) (name : string).

Lemma createCollection_created name dimension description this col b :
  client_createCollection (create_params name dimension description) (client this)
    = (Return col, b) ->
  createCollection name dimension description this = (Return tt, cached name col b this).
Proof.
  intros Hc. unfold createCollection, try_catch, bind, call.
  fold (create_params name dimension description). rewrite Hc. reflexivity.
Qed.

Lemma createCollection_exists name dimension description this e b col b' :
  client_createCollection (create_params name dimension description) (client this)
    = (Throw e, b) ->
  message_includes e "already exists" = true ->
  client_getOrCreateCollection name b = (Return col, b') ->
  createCollection name dimension description this = (Return tt, cached name col b' this).
Proof.
  intros Hc He Hg. unfold createCollection, try_catch, bind, call.
  fold (create_params name dimension description). rewrite Hc. cbn.
  rewrite He. cbn. rewrite Hg. reflexivity.
Qed.

Lemma createCollection_exists_throw name dimension description this e b e' b' :
  client_createCollection (create_params name dimension description) (client this)
    = (Throw e, b) ->
  message_includes e "already exists" = true ->
  client_getOrCreateCollection name b = (Throw e', b') ->
  createCollection name dimension description this = (Throw e', with_client b' this).
Proof.
  intros Hc He Hg. unfold createCollection, try_catch, bind, call.
  fold (create_params name dimension description). rewrite Hc. cbn.
  rewrite He. cbn. rewrite Hg. reflexivity.
Qed.

Lemma createCollection_rethrow name dimension description this e b :
  client_createCollection (create_params name dimension description) (client this)
    = (Throw e, b) ->
  message_includes e "already exists" = false ->
  createCollection name dimension description this = (Throw e, with_client b this).
Proof.
  intros Hc He. unfold createCollection, try_catch, bind, call.
  fold (create_params name dimension description). rewrite Hc. cbn.
  rewrite He. reflexivity.
Qed.

(** A successful [createCollection] leaves the name in the cache. *)
Lemma createCollection_caches name dimension description this this' :
  createCollection name dimension description this = (Return tt, this') ->
  exists col, collections this' !! name = Some col.
Proof.
  unfold createCollection, try_catch, bind, call, collections_set, throw.
  destruct (client_createCollection _ (client this)) as [[col|e] b]; cbn.
  - intros [= <-]. exists col. cbn. apply lookup_insert_eq.
  - destruct (message_includes e "already exists"); cbn; [|discriminate].
    destruct (client_getOrCreateCollection name b) as [[col|e'] b']; cbn; [|discriminate].
    intros [= <-]. exists col. cbn. apply lookup_insert_eq.
Qed.

Lemma getOrCreateCollection_cached name this col :
  collections this !! name = Some col ->
  getOrCreateCollection name this = (Return col, this).
Proof. intros Hc. unfold getOrCreateCollection. rewrite Hc. reflexivity. Qed.

Lemma getOrCreateCollection_fetched name this col b :
  collections this !! name = None ->
  client_getOrCreateCollection name (client this) = (Return col, b) ->
  getOrCreateCollection name this = (Return col, cached name col b this).
Proof.
  intros Hc Hg. unfold getOrCreateCollection, try_catch, bind, call. rewrite Hc, Hg.
  reflexivity.
Qed.

(** The fallback: when the client's get-or-create throws, the collection is
    created with dimension 1536. *)
Lemma getOrCreateCollection_fallback name this e b :
  collections this !! name = None ->
  client_getOrCreateCollection name (client this) = (Throw e, b) ->
  getOrCreateCollection name this =
    match createCollection name 1536 None (with_client b this) with
    | (Return _, this') =>
        match collections this' !! name with
        | Some col => (Return col, this')
        | None => (Throw (TypeError "Cannot read properties of undefined"), this')
        end
    | (Throw e', this') => (Throw e', this')
    end.
Proof.
  intros Hc Hg. unfold getOrCreateCollection, try_catch. rewrite Hc.
  unfold bind at 1. unfold call at 1. rewrite Hg. cbn.
  unfold bind. fold (with_client b this).
  destruct (createCollection name 1536 None (with_client b this)) as [[[]|e'] this'];
    reflexivity.
Qed.

Lemma getOrCreateCollection_fallback_created name this e b col b' :
  collections this !! name = None ->
  client_getOrCreateCollection name (client this) = (Throw e, b) ->
  client_createCollection (create_params name 1536 None) b = (Return col, b') ->
  getOrCreateCollection name this = (Return col, cached name col b' this).
Proof.
  intros Hc Hg Hn. rewrite (getOrCreateCollection_fallback name this e b Hc Hg).
  rewrite (createCollection_created name 1536 None (with_client b this) col b' Hn).
  unfold cached at 1. cbn. rewrite lookup_insert_eq. reflexivity.
Qed.

(** A returned handle is in the cache afterwards. *)
Lemma getOrCreateCollection_returns_cached name this col this' :
  getOrCreateCollection name this = (Return col, this') ->
  collections this' !! name = Some col.
Proof.
  destruct (collections this !! name) as [c|] eqn:Hc.
  - rewrite (getOrCreateCollection_cached _ _ _ Hc). intros [= <- <-]. exact Hc.
  - destruct (client_getOrCreateCollection name (client this)) as [[c|e] b] eqn:Hg.
    + rewrite (getOrCreateCollection_fetched _ _ _ _ Hc Hg). intros [= <- <-].
      cbn. apply lookup_insert_eq.
    + rewrite (getOrCreateCollection_fallback _ _ _ _ Hc Hg).
      destruct (createCollection name 1536 None (with_client b this)) as [[[]|e'] t];
        [|discriminate].
      destruct (collections t !! name) eqn:Ht; [|discriminate].
      intros [= <- <-]. exact Ht.
Qed.

End AdapterFacts.

(** ** [createCollection] *)

Section CreateCollection.

Context {B Col : Type} `{ChromaClient B Col} `{Runtime}.

Implicit Types (this : ChromaDBVectorDatabase B Col) (name : string).

(** C5, as amended: when the client refuses the creation, [createCollection]
    looks at the error message only.  If it contains "already exists" the
    existing collection is fetched by get-or-create and the call succeeds,
    whatever dimension was passed; otherwise the client's error is rethrown
    unchanged.  No dimension is compared. *)
Theorem createCollection_existing_ignores_dimension
    name dimension description this e b :
  client_createCollection (create_params name dimension description) (client this)
    = (Throw e, b) ->
  createCollection name dimension description this =
    if message_includes e "already exists" then
      match client_getOrCreateCollection name b with
      | (Return col, b') => (Return tt, cached name col b' this)
      | (Throw e', b') => (Throw e', with_client b' this)
      end
    else (Throw e, with_client b this).
Proof.
  intros Hc. destruct (message_includes e "already exists") eqn:He.
  - destruct (client_getOrCreateCollection name b) as [[col|e'] b'] eqn:Hg.
    + eapply createCollection_exists; eauto.
    + eapply createCollection_exists_throw; eauto.
  - eapply createCollection_rethrow; eauto.
Qed.

(** C6: creating a collection succeeds when the server accepts the creation,
    and succeeds again, in any later state, when the server refuses it with
    an "already exists" error and hands out the existing collection; the
    server being left as it was by these two requests, the second call
    leaves everything stored intact. *)
Theorem createCollection_idempotent
    name dimension description this0 col0 b1 this1 e col :
  client_createCollection (create_params name dimension description) (client this0)
    = (Return col0, b1) ->
  client_createCollection (create_params name dimension description) (client this1)
    = (Throw e, client this1) ->
  message_includes e "already exists" = true ->
  client_getOrCreateCollection name (client this1) = (Return col, client this1) ->
  createCollection name dimension description this0
    = (Return tt, cached name col0 b1 this0)
  /\ exists this2,
       createCollection name dimension description this1 = (Return tt, this2)
       /\ client this2 = client this1.
Proof.
  intros Hfirst Hsecond He Hg. split.
  - apply createCollection_created. exact Hfirst.
  - exists (cached name col (client this1) this1). split; [|reflexivity].
    eapply createCollection_exists; eauto.
Qed.

End CreateCollection.

Import Examples Reference.

(** C5 fails on the code: ["code"] was declared with dimension 768, and
    creating it again with dimension 1536 succeeds. *)
Lemma createCollection_dimension_conflict_succeeds :
  (exists c, client declared_768 !! "code" = Some c
             /\ (stored_metadata c ≫= obj_get "dimension") = Some (JStr "768"))
  /\ result (createCollection "code" 1536 None) declared_768 = Return tt.
Proof.
  split.
  - eexists. split; vm_compute; reflexivity.
  - vm_compute. reflexivity.
Qed.

Lemma createCollection_existing_ignores_dimension_witness :
  client_createCollection (create_params "code" 1536 None) (client declared_768)
    = (Throw (Error "Collection code already exists"), client declared_768)
  /\ createCollection "code" 1536 None declared_768
     = (Return tt, cached "code" "code" (client declared_768) declared_768).
Proof.
  assert (Hc : client_createCollection (create_params "code" 1536 None)
                 (client declared_768)
               = (Throw (Error "Collection code already exists"), client declared_768))
    by (vm_compute; reflexivity).
  split; [exact Hc|].
  rewrite (createCollection_existing_ignores_dimension "code" 1536 None declared_768
             (Error "Collection code already exists") (client declared_768) Hc).
  vm_compute. reflexivity.
Defined.

Lemma createCollection_idempotent_witness :
  client_createCollection (create_params "code" 768 None) (client fresh)
    = (Return "code", client declared_768)
  /\ client_createCollection (create_params "code" 768 None) (client with_x)
     = (Throw (Error "Collection code already exists"), client with_x)
  /\ message_includes (Error "Collection code already exists") "already exists" = true
  /\ client_getOrCreateCollection "code" (client with_x) = (Return "code", client with_x)
  /\ createCollection "code" 768 None fresh
     = (Return tt, cached "code" "code" (client declared_768) fresh)
  /\ exists this2,
       createCollection "code" 768 None with_x = (Return tt, this2)
       /\ client this2 = client with_x.
Proof.
  assert (H0 : client_createCollection (create_params "code" 768 None) (client fresh)
               = (Return "code", client declared_768)) by (vm_compute; reflexivity).
  assert (H1 : client_createCollection (create_params "code" 768 None) (client with_x)
               = (Throw (Error "Collection code already exists"), client with_x))
    by (vm_compute; reflexivity).
  assert (He : message_includes (Error "Collection code already exists") "already exists"
               = true) by reflexivity.
  assert (Hg : client_getOrCreateCollection "code" (client with_x)
               = (Return "code", client with_x)) by (vm_compute; reflexivity).
  repeat split; try assumption;
    apply (createCollection_idempotent "code" 768 None fresh "code"
             (client declared_768) with_x (Error "Collection code already exists")
             "code" H0 H1 He Hg).
Defined.

(** ** [insert] *)

Section Insert.

Context {B Col : Type} `{ChromaClient B Col} `{Runtime}.

Implicit Types (this : ChromaDBVectorDatabase B Col) (name : string).

Lemma add_params_lookup (documents : list VectorDocument) (i : nat) (d : VectorDocument) :
  documents !! i = Some d ->
  ids (add_params documents) !! i = Some (doc_id d)
  /\ embeddings (add_params documents) !! i = Some (vector d)
  /\ metadatas (add_params documents) !! i = Some (document_metadata d)
  /\ Chroma.documents (add_params documents) !! i = Some (content d).
Proof.
  intros Hd. unfold add_params. cbn.
  rewrite !list_lookup_fmap, Hd. cbn. auto.
Qed.

(** C1, as amended: [insert] checks no vector length.  Once the collection
    is resolved, the whole batch goes to the client in one [add] request,
    which carries the id, vector, metadata and content of every document, in
    batch order and whatever the length of each vector; the call fails
    exactly when resolving the collection or that request fails, with the
    client's error. *)
Theorem insert_transmits_batch_unvalidated name (documents : list VectorDocument) this :
  insert name documents this =
    match getOrCreateCollection name this with
    | (Return col, this1) => call (collection_add col (add_params documents)) this1
    | (Throw e, this1) => (Throw e, this1)
    end
  /\ length (ids (add_params documents)) = length documents
  /\ forall i d, documents !! i = Some d ->
       ids (add_params documents) !! i = Some (doc_id d)
       /\ embeddings (add_params documents) !! i = Some (vector d)
       /\ metadatas (add_params documents) !! i = Some (document_metadata d)
       /\ Chroma.documents (add_params documents) !! i = Some (content d).
Proof.
  split; [|split].
  - unfold insert, bind.
    destruct (getOrCreateCollection name this) as [[col|e] this1]; reflexivity.
  - unfold add_params. cbn. apply length_map.
  - apply add_params_lookup.
Qed.

End Insert.

(** C1 fails on the code: ["code"] was declared with dimension 768; a
    document whose vector has length 2 is inserted without error and is
    stored. *)
Lemma insert_accepts_mismatched_dimension :
  (exists c, client declared_768 !! "code" = Some c
             /\ (stored_metadata c ≫= obj_get "dimension") = Some (JStr "768"))
  /\ length (vector (doc "x" [1; 0]%Q "first")) = 2%nat
  /\ result (insert "code" [doc "x" [1; 0]%Q "first"]) declared_768 = Return tt
  /\ (records <$> client (run (insert "code" [doc "x" [1; 0]%Q "first"]) declared_768)
                    !! "code")
     = Some [ {| record_id := "x";
                 record_embedding := [1; 0]%Q;
                 record_metadata := document_metadata (doc "x" [1; 0]%Q "first");
                 record_document := "first" |} ].
Proof.
  split; [eexists; split; vm_compute; reflexivity|].
  repeat split; vm_compute; reflexivity.
Qed.

Lemma insert_transmits_batch_unvalidated_witness :
  [doc "x" [1; 0]%Q "first"] !! 0%nat = Some (doc "x" [1; 0]%Q "first")
  /\ embeddings (add_params [doc "x" [1; 0]%Q "first"]) !! 0%nat = Some [1; 0]%Q
  /\ insert "code" [doc "x" [1; 0]%Q "first"] declared_768
     = call (collection_add "code" (add_params [doc "x" [1; 0]%Q "first"])) declared_768.
Proof.
  destruct (insert_transmits_batch_unvalidated
              "code" [doc "x" [1; 0]%Q "first"] declared_768) as (Hrun & _ & Hat).
  split; [reflexivity|]. split.
  - apply (Hat 0%nat (doc "x" [1; 0]%Q "first")). reflexivity.
  - rewrite Hrun. vm_compute. reflexivity.
Defined.

(** ** Operations on a collection that is not cached *)

Section Resolution.

Context {B Col : Type} `{ChromaClient B Col} `{Runtime}.

Implicit Types (this : ChromaDBVectorDatabase B Col) (name : string).

(** An operation that starts by resolving the collection runs, once the
    collection is resolved and cached, as it does on the cached state. *)
Lemma resolved_as_cached {A} name this col b (k : Col -> Async _ A) :
  getOrCreateCollection name this = (Return col, cached name col b this) ->
  bind (getOrCreateCollection name) k this
  = bind (getOrCreateCollection name) k (cached name col b this).
Proof.
  intros Hg. unfold bind at 1. rewrite Hg.
  unfold bind.
  rewrite (getOrCreateCollection_cached name (cached name col b this) col);
    [reflexivity|].
  cbn. apply lookup_insert_eq.
Qed.

Lemma search_empty_reply name queryVector options this col this1 results b :
  getOrCreateCollection name this = (Return col, this1) ->
  collection_query col (query_params queryVector options) (client this1)
    = (Return results, b) ->
  res_metadatas results = Some [[]] ->
  res_documents results = Some [[]] ->
  res_distances results = Some [[]] ->
  search name queryVector options this = (Return [], with_client b this1).
Proof.
  intros Hg Hq Hm Hd Hx. unfold search, bind. rewrite Hg.
  unfold call. rewrite Hq. rewrite Hm, Hd, Hx. reflexivity.
Qed.

(** On a collection that is not cached, [insert], [search], [delete] and
    [query] go through the client's get-or-create, and through the creation
    with dimension 1536 when that throws. *)
Lemma uncached_collection_is_created name this :
  collections this !! name = None ->
  (forall col b,
      client_getOrCreateCollection name (client this) = (Return col, b) ->
      getOrCreateCollection name this = (Return col, cached name col b this)
      /\ (forall docs, insert name docs this = insert name docs (cached name col b this))
      /\ (forall q o, search name q o this = search name q o (cached name col b this))
      /\ (forall ids, delete name ids this = delete name ids (cached name col b this))
      /\ (forall f fs l, query name f fs l this = query name f fs l (cached name col b this))
      /\ (forall q o results b',
             collection_query col (query_params q o) b = (Return results, b') ->
             res_metadatas results = Some [[]] ->
             res_documents results = Some [[]] ->
             res_distances results = Some [[]] ->
             search name q o this = (Return [], cached name col b' this)))
  /\ (forall e b col b',
         client_getOrCreateCollection name (client this) = (Throw e, b) ->
         client_createCollection (create_params name 1536 None) b = (Return col, b') ->
         obj_get "dimension" (create_metadata (create_params name 1536 None))
           = Some (JStr "1536")
         /\ getOrCreateCollection name this = (Return col, cached name col b' this)
         /\ (forall docs, insert name docs this = insert name docs (cached name col b' this))
         /\ (forall q o, search name q o this = search name q o (cached name col b' this))
         /\ (forall ids, delete name ids this = delete name ids (cached name col b' this))
         /\ (forall f fs l,
                query name f fs l this = query name f fs l (cached name col b' this))).
Proof.
  intros Hnone. split.
  - intros col b Hg.
    pose proof (getOrCreateCollection_fetched name this col b Hnone Hg) as Hr.
    split; [exact Hr|].
    split; [intros; apply resolved_as_cached; exact Hr|].
    split; [intros; apply resolved_as_cached; exact Hr|].
    split; [intros; apply resolved_as_cached; exact Hr|].
    split; [intros; apply resolved_as_cached; exact Hr|].
    intros q o results b' Hq Hm Hd Hx.
    apply (search_empty_reply name q o this col (cached name col b this) results b' Hr);
      assumption.
  - intros e b col b' Hg Hc.
    pose proof (getOrCreateCollection_fallback_created name this e b col b' Hnone Hg Hc)
      as Hr.
    split; [reflexivity|].
    split; [exact Hr|].
    split; [intros; apply resolved_as_cached; exact Hr|].
    split; [intros; apply resolved_as_cached; exact Hr|].
    split; [intros; apply resolved_as_cached; exact Hr|].
    intros; apply resolved_as_cached; exact Hr.
Qed.

Lemma cached_data_request {A} name this col (f : Col -> Async B A) :
  collections this !! name = Some col ->
  bind (getOrCreateCollection name) (fun collection => call (f collection)) this
  = call (f col) this.
Proof.
  intros Hc. unfold bind. rewrite (getOrCreateCollection_cached name this col Hc).
  reflexivity.
Qed.

(** C10, as amended: [insert], [search], [delete] and [query] resolve the
    collection through [getOrCreateCollection].  When no handle is cached
    under the name, the client's get-or-create is asked (the request by
    which a server creates a collection it lacks), and when that throws the
    collection is created with the fixed dimension 1536; the operation then
    runs on the handle obtained, and a [search] whose query finds the new
    collection empty returns the empty list.  When a handle is cached, nothing is
    asked and nothing is created: the operation sends its data request on
    the cached handle, whatever the server holds, and fails with the error
    of that request. *)
Theorem collection_resolved_from_cache_or_created name this :
  (forall col,
      collections this !! name = Some col ->
      getOrCreateCollection name this = (Return col, this)
      /\ (forall docs,
             insert name docs this = call (collection_add col (add_params docs)) this)
      /\ (forall ids, delete name ids this = call (collection_delete col ids) this)
      /\ (forall q o e b,
             collection_query col (query_params q o) (client this) = (Throw e, b) ->
             search name q o this = (Throw e, with_client b this))
      /\ (forall f fs l e b,
             collection_get col (get_params f l) (client this) = (Throw e, b) ->
             query name f fs l this = (Throw e, with_client b this)))
  /\ (collections this !! name = None ->
      (forall col b,
          client_getOrCreateCollection name (client this) = (Return col, b) ->
          getOrCreateCollection name this = (Return col, cached name col b this)
          /\ (forall docs,
                 insert name docs this = insert name docs (cached name col b this))
          /\ (forall q o, search name q o this = search name q o (cached name col b this))
          /\ (forall ids, delete name ids this = delete name ids (cached name col b this))
          /\ (forall f fs l,
                 query name f fs l this = query name f fs l (cached name col b this))
          /\ (forall q o results b',
                 collection_query col (query_params q o) b = (Return results, b') ->
                 res_metadatas results = Some [[]] ->
                 res_documents results = Some [[]] ->
                 res_distances results = Some [[]] ->
                 search name q o this = (Return [], cached name col b' this)))
      /\ (forall e b col b',
             client_getOrCreateCollection name (client this) = (Throw e, b) ->
             client_createCollection (create_params name 1536 None) b = (Return col, b') ->
             obj_get "dimension" (create_metadata (create_params name 1536 None))
             = Some (JStr "1536")
             /\ getOrCreateCollection name this = (Return col, cached name col b' this)
             /\ (forall docs,
                    insert name docs this = insert name docs (cached name col b' this))
             /\ (forall q o,
                    search name q o this = search name q o (cached name col b' this))
             /\ (forall ids,
                    delete name ids this = delete name ids (cached name col b' this))
             /\ (forall f fs l,
                    query name f fs l this
                    = query name f fs l (cached name col b' this)))).
Proof.
  split; [|apply uncached_collection_is_created].
  intros col Hc.
  pose proof (getOrCreateCollection_cached name this col Hc) as Hg.
  split; [exact Hg|].
  split; [intros docs;
          apply (cached_data_request name this col
                   (fun collection => collection_add collection (add_params docs)) Hc)|].
  split; [intros ids;
          apply (cached_data_request name this col
                   (fun collection => collection_delete collection ids) Hc)|].
  split.
  - intros q o e b Hq. unfold search, bind. rewrite Hg. unfold call. rewrite Hq.
    reflexivity.
  - intros f fs l e b Hq. unfold query, bind. rewrite Hg. unfold call. rewrite Hq.
    reflexivity.
Qed.

End Resolution.

(** C10 fails on the code: the adapter caches the handle of ["code"] and the
    server no longer holds the collection.  [insert], [search], [delete]
    and [query] each fail with the server's error, and none of them creates
    the collection. *)
Lemma cached_handle_of_absent_collection_fails :
  collections stale_handle !! "code" = Some "code"
  /\ client stale_handle !! "code" = None
  /\ insert "code" [doc "x" [1; 0]%Q "first"] stale_handle
     = (Throw (Error "Collection code does not exist"), stale_handle)
  /\ search "code" [1; 0]%Q default_SearchOptions stale_handle
     = (Throw (Error "Collection code does not exist"), stale_handle)
  /\ delete "code" ["x"] stale_handle
     = (Throw (Error "Collection code does not exist"), stale_handle)
  /\ query "code" "language = ts" [] None stale_handle
     = (Throw (Error "Collection code does not exist"), stale_handle).
Proof. repeat split; vm_compute; reflexivity. Qed.

Lemma collection_resolved_from_cache_or_created_witness :
  collections fresh !! "notes" = None
  /\ client fresh !! "notes" = None
  /\ search "notes" [1; 0]%Q default_SearchOptions fresh
     = (Return [],
        cached "notes" "notes"
               (<["notes" := {| stored_metadata := None; records := [] |}]> ∅) fresh)
  /\ @getOrCreateCollection _ _ failing_get_or_create "notes" fresh
     = (Return "notes",
        cached "notes" "notes"
               (<["notes" :=
                    {| stored_metadata :=
                         Some [("description", JStr "Collection for notes");
                               ("dimension", JStr "1536")];
                       records := [] |}]> ∅)
               fresh).
Proof.
  assert (Hnone : collections fresh !! "notes" = None) by reflexivity.
  split; [exact Hnone|]. split; [reflexivity|]. split.
  - destruct (collection_resolved_from_cache_or_created "notes" fresh) as [_ Hun].
    destruct (Hun Hnone) as [Hgoc _].
    destruct (Hgoc "notes" (<["notes" := {| stored_metadata := None; records := [] |}]> ∅))
      as (_ & _ & _ & _ & _ & Hsearch); [vm_compute; reflexivity|].
    eapply Hsearch; vm_compute; reflexivity.
  - destruct (@collection_resolved_from_cache_or_created _ _ failing_get_or_create _
                "notes" fresh) as [_ Hun].
    destruct (Hun Hnone) as [_ Hfall].
    destruct (Hfall (Error "Failed to fetch") ∅ "notes"
                (<["notes" :=
                     {| stored_metadata :=
                          Some [("description", JStr "Collection for notes");
                                ("dimension", JStr "1536")];
                        records := [] |}]> ∅))
      as (_ & Hr & _); [vm_compute; reflexivity..|].
    exact Hr.
Defined.

(** ** [search] *)

Section Search.

Context {B Col : Type} `{ChromaClient B Col} `{Runtime}.

Implicit Types (this : ChromaDBVectorDatabase B Col) (name : string).



(** The results built from a row whose metadata are all present: one per
    row entry, in row order, each with the id and the distance found at its
    own index. *)
Lemma map_from_search_result queryVector results (ms : list JsObject) (k : nat) :
  exists found,
    map_from (search_result queryVector results) k (Some <$> ms) = Return found
    /\ length found = length ms
    /\ forall i r, found !! i = Some r ->
         score r = (1 - num_or (at_row0 (res_distances results) (k + i)) 0)%Q
         /\ doc_id (document r) = str_or (at_row0 (res_ids results) (k + i)) ""
         /\ vector (document r) = queryVector.
Proof.
  revert k. induction ms as [|m ms IH]; intros k.
  - exists []. split; [reflexivity|split; [reflexivity|]].
    intros i r Hi. discriminate Hi.
  - destruct (IH (S k)) as (found & Hmap & Hlen & Hat).
    exists ({| document :=
                 {| doc_id := str_or (at_row0 (res_ids results) k) "";
                    vector := queryVector;
                    content := str_or (mjoin (at_row0 (res_documents results) k)) "";
                    relativePath := or_else (obj_get "relativePath" m) (JStr "");
                    startLine := int_or (parseInt (obj_get "startLine" m)) 0;
                    endLine := int_or (parseInt (obj_get "endLine" m)) 0;
                    fileExtension := or_else (obj_get "fileExtension" m) (JStr "");
                    metadata := m |};
               score := (1 - num_or (at_row0 (res_distances results) k) 0)%Q |}
            :: found).
    split; [cbn; rewrite Hmap; reflexivity|].
    split; [cbn; rewrite Hlen; reflexivity|].
    intros [|i] r Hi.
    + injection Hi as <-. cbn. rewrite Nat.add_0_r. auto.
    + cbn in Hi. replace (k + S i)%nat with (S k + i)%nat by lia. apply Hat. exact Hi.
Qed.

End Search.

(** ** [hybridSearch] *)

Section HybridSearch.

Context {B Col : Type} `{ChromaClient B Col} `{Runtime}.

Implicit Types (this : ChromaDBVectorDatabase B Col) (name : string).

Lemma hybridSearch_dense name requests options this dense :
  List.find is_dense requests = Some dense ->
  hybridSearch name requests options this =
    match search name (as_number_array (data dense)) (dense_options options dense) this with
    | (Return found, this') => (Return (map as_hybrid found), this')
    | (Throw e, this') => (Throw e, this')
    end.
Proof.
  intros Hf. unfold hybridSearch. fold is_dense. rewrite Hf.
  fold (dense_options options dense). unfold bind.
  destruct (search name (as_number_array (data dense)) (dense_options options dense) this)
    as [[found|e] this']; reflexivity.
Qed.

(** C3, as amended: [hybridSearch] runs the dense search only.  It fails
    when no request has the field "vector"; otherwise it takes the first
    such request, searches with that request's vector, with the options' limit or else the request's own, and without
    filter, and returns that search's results with their order and scores
    unchanged; every other request, the lexical one included, is ignored.
    So the document that ranks first in the dense list ranks first in the
    result. *)
Theorem hybridSearch_is_dense_search name requests options this :
  (List.find is_dense requests = None ->
   hybridSearch name requests options this
   = (Throw (Error "Dense vector search request is required for hybrid search"), this))
  /\ (forall dense v,
         List.find is_dense requests = Some dense ->
         data dense = DataVector v ->
         hybridSearch name requests options this =
           match search name v (dense_options options dense) this with
           | (Return found, this') => (Return (map as_hybrid found), this')
           | (Throw e, this') => (Throw e, this')
           end
         /\ (forall others,
                List.find is_dense others = Some dense ->
                hybridSearch name others options this
                = hybridSearch name requests options this)
         /\ (forall found this' top,
                search name v (dense_options options dense) this = (Return found, this') ->
                head found = Some top ->
                exists out first,
                  hybridSearch name requests options this = (Return out, this')
                  /\ length out = length found
                  /\ head out = Some first
                  /\ hybrid_document first = document top
                  /\ hybrid_score first = score top)).
Proof.
  split.
  - intros Hnone. unfold hybridSearch. fold is_dense. rewrite Hnone. reflexivity.
  - intros dense v Hf Hv.
    pose proof (hybridSearch_dense name requests options this dense Hf) as E.
    rewrite Hv in E. cbn in E.
    split; [exact E|]. split.
    + intros others Ho. rewrite E.
      rewrite (hybridSearch_dense name others options this dense Ho).
      rewrite Hv. reflexivity.
    + intros found this' top Hs Htop. rewrite E, Hs.
      destruct found as [|r found']; [discriminate Htop|].
      injection Htop as ->.
      exists (map as_hybrid (top :: found')), (as_hybrid top).
      split; [reflexivity|]. split; [apply length_map|]. auto.
Qed.

End HybridSearch.

(** C3 fails on the code: over ["code"], whose dense ranking is ["a"] then
    ["b"] and whose lexical ranking holds ["b"] only, [hybridSearch] returns
    the dense ranking with the dense scores; no positive weights make that
    the weighted sum of the two lists. *)
Lemma hybridSearch_ignores_lexical_list :
  exists out,
    result (hybridSearch "code" [dense_request; lexical_request]
                         {| options_limit := None |}) with_a_b = Return out
    /\ ranked_output out = dense_list
    /\ forall w_dense w_lexical,
         (0 < w_dense)%Q -> (0 < w_lexical)%Q ->
         ~ same_ranking out
             (Fusion.weighted_fusion w_dense w_lexical dense_list lexical_list 2).
Proof.
  eexists. split; [vm_compute; reflexivity|]. split; [vm_compute; reflexivity|].
  intros wd wl Hd Hl Hsame. unfold same_ranking in Hsame.
  unfold Fusion.weighted_fusion, Fusion.candidates, Fusion.rank, dense_list,
    lexical_list in Hsame.
  cbn [map fst snd app Fusion.distinct List.filter String.eqb Ascii.eqb Bool.eqb negb
       fold_right Fusion.place] in Hsame.
  unfold Fusion.fused_score, Fusion.score_in in Hsame.
  cbn [List.find fst snd String.eqb Ascii.eqb Bool.eqb] in Hsame.
  match type of Hsame with
  | context [Fusion.before ?x ?y] => destruct (Fusion.before x y)
  end; cbn [take] in Hsame.
  - inversion Hsame as [|? ? ? ? [_ Ha] Hrest]; subst.
    inversion Hrest as [|? ? ? ? [_ Hb] _]; subst.
    cbn in Ha, Hb. lra.
  - inversion Hsame as [|? ? ? ? [Hid _] _]; subst.
    cbn in Hid. discriminate Hid.
Qed.

Lemma hybridSearch_is_dense_search_witness :
  List.find is_dense [lexical_request; dense_request] = Some dense_request
  /\ data dense_request = DataVector [1; 0]%Q
  /\ hybridSearch "code" [dense_request] {| options_limit := None |} with_a_b
     = hybridSearch "code" [lexical_request; dense_request] {| options_limit := None |}
                    with_a_b.
Proof.
  split; [reflexivity|]. split; [reflexivity|].
  destruct (hybridSearch_is_dense_search "code" [lexical_request; dense_request]
              {| options_limit := None |} with_a_b) as [_ Hdense].
  destruct (Hdense dense_request [1; 0]%Q eq_refl eq_refl) as (_ & Hothers & _).
  apply Hothers. reflexivity.
Defined.

(** ** The embedding provider *)

Section Provider.

Import OpenRouter.

Context {N : Type} `{Http N} `{EmbeddingBase}.

Lemma modelDimensions_nonzero (m : string) (d : Z) :
  table_get m modelDimensions = Some d -> d <> 0%Z.
Proof.
  unfold modelDimensions. cbn [table_get].
  repeat (destruct (String.eqb m _); [intros [= <-]; discriminate|]).
  discriminate.
Qed.

(** C7, as amended: [detectDimension] sends no request and leaves the
    service untouched.  It returns what [getDimension] returns: the table's
    value for a model the table lists and, for a model that is neither in
    the table nor the name of an inherited object property, the fixed value
    1536. *)
Theorem detectDimension_is_static config testText (n : N) :
  detectDimension config testText n = (Return (getDimension config), n)
  /\ (forall d, table_get (model config) modelDimensions = Some d ->
        getDimension config = Dimension d)
  /\ (table_get (model config) modelDimensions = None ->
      inherited (model config) = false ->
      getDimension config = Dimension 1536).
Proof.
  split; [reflexivity|]. split.
  - intros d Hd. unfold getDimension. rewrite Hd. cbn.
    pose proof (modelDimensions_nonzero _ _ Hd) as Hnz.
    destruct (Z.eqb_spec d 0); [contradiction|reflexivity].
  - intros Hd Hi. unfold getDimension. rewrite Hd, Hi. reflexivity.
Qed.

(** C9, as amended: [embedBatch] returns exactly one vector per item of the
    service's reply, in the order of the reply: the i-th vector is the
    embedding of the i-th item and its dimension is the length of that
    embedding.  It neither counts the items nor reads their index, so the
    output has one vector per input text exactly when the reply has one item
    per text; and when the reply lists the embeddings of the transmitted
    texts in the order of the texts, the i-th vector is the embedding of the
    i-th input text.  Nothing is reordered or dropped on the way. *)
Theorem embedBatch_follows_reply
    config (texts : list string) (n n' : N) response reply :
  fetch (embeddings_request config (preprocessTexts maxTokens texts)) n
  = (Return response, n') ->
  ok response = true ->
  json response = Return reply ->
  exists out,
    embedBatch config texts n = (Return out, n')
    /\ length out = length (data reply)
    /\ (forall i item, data reply !! i = Some item ->
          out !! i = Some {| vector := embedding item;
                             dimension := Z.of_nat (length (embedding item)) |})
    /\ (length out = length texts <-> length (data reply) = length texts)
    /\ (forall (pre : string -> string) (embedding_of : string -> list Q),
          preprocessTexts maxTokens texts = map pre texts ->
          data reply
          = map (fun text => {| embedding := embedding_of text |}) (map pre texts) ->
          length out = length texts
          /\ forall i text, texts !! i = Some text ->
               out !! i = Some {| vector := embedding_of (pre text);
                                  dimension :=
                                    Z.of_nat (length (embedding_of (pre text))) |}).
Proof.
  intros Hfetch Hok Hjson.
  exists (map (fun item => {| vector := embedding item;
                              dimension := Z.of_nat (length (embedding item)) |})
              (data reply)).
  split; [|split; [|split; [|split]]].
  - unfold embedBatch, bind. rewrite Hfetch, Hok. cbn. rewrite Hjson. reflexivity.
  - apply length_map.
  - intros i item Hi. rewrite list_lookup_fmap, Hi. reflexivity.
  - rewrite length_map. reflexivity.
  - intros pre embedding_of Hpre Hdata. rewrite Hdata. split.
    + rewrite !length_map. reflexivity.
    + intros i text Hi. rewrite !list_lookup_fmap, Hi. reflexivity.
Qed.

End Provider.

(** C7 fails on the code: for a model the table does not list, the service
    produces vectors of length 3, yet [detectDimension] answers 1536 and the
    service's log shows that no request was sent. *)
Lemma detectDimension_sends_no_probe :
  OpenRouter.table_get (OpenRouter.model custom_model) OpenRouter.modelDimensions = None
  /\ OpenRouter.detectDimension custom_model (Some "probe") ([] : list OpenRouter.FetchRequest)
     = (Return (OpenRouter.Dimension 1536), [])
  /\ result (OpenRouter.embed custom_model "probe") ([] : list OpenRouter.FetchRequest)
     = Return (Some {| OpenRouter.vector := [5; 1; 0]%Q; OpenRouter.dimension := 3 |}).
Proof. repeat split; vm_compute; reflexivity. Qed.

Lemma detectDimension_is_static_witness :
  OpenRouter.table_get (OpenRouter.model custom_model) OpenRouter.modelDimensions = None
  /\ OpenRouter.inherited (OpenRouter.model custom_model) = false
  /\ OpenRouter.getDimension custom_model = OpenRouter.Dimension 1536.
Proof.
  split; [reflexivity|]. split; [reflexivity|].
  destruct (detectDimension_is_static custom_model None ([] : list OpenRouter.FetchRequest))
    as (_ & _ & Hdefault).
  apply Hdefault; reflexivity.
Defined.

(** C9 fails on the code: for the texts ["a"] and ["bc"], a service that
    answers with one item makes [embedBatch] return one vector for two
    texts, and a service that answers in reverse order makes it return the
    embedding of ["bc"] first; neither is an error. *)
Lemma embedBatch_returns_reply_as_is :
  result (@OpenRouter.embedBatch _ short_http _ custom_model ["a"; "bc"])
         ([] : list OpenRouter.FetchRequest)
  = Return [ {| OpenRouter.vector := text_embedding "a"; OpenRouter.dimension := 3 |} ]
  /\ result (@OpenRouter.embedBatch _ reversing_http _ custom_model ["a"; "bc"])
            ([] : list OpenRouter.FetchRequest)
     = Return [ {| OpenRouter.vector := text_embedding "bc"; OpenRouter.dimension := 3 |};
                {| OpenRouter.vector := text_embedding "a"; OpenRouter.dimension := 3 |} ]
  /\ text_embedding "a" <> text_embedding "bc".
Proof.
  split; [vm_compute; reflexivity|]. split; [vm_compute; reflexivity|].
  vm_compute. discriminate.
Qed.

Lemma embedBatch_follows_reply_witness :
  exists out,
    @OpenRouter.embedBatch _ reversing_http _ custom_model ["a"; "bc"]
      ([] : list OpenRouter.FetchRequest)
    = (Return out, [OpenRouter.embeddings_request custom_model ["a"; "bc"]])
    /\ length out = 2%nat
    /\ out !! 0%nat
       = Some {| OpenRouter.vector := text_embedding "bc"; OpenRouter.dimension := 3 |}.
Proof.
  pose (reply := {| OpenRouter.data :=
                      [ {| OpenRouter.embedding := text_embedding "bc" |};
                        {| OpenRouter.embedding := text_embedding "a" |} ] |}).
  pose (response := {| OpenRouter.ok := true;
                       OpenRouter.status := 200;
                       OpenRouter.statusText := "OK";
                       OpenRouter.json := Return reply |}).
  assert (Hfetch :
            @OpenRouter.fetch _ reversing_http
              (OpenRouter.embeddings_request custom_model
                 (OpenRouter.preprocessTexts OpenRouter.maxTokens ["a"; "bc"]))
              ([] : list OpenRouter.FetchRequest)
            = (Return response, [OpenRouter.embeddings_request custom_model ["a"; "bc"]]))
    by (vm_compute; reflexivity).
  destruct (@embedBatch_follows_reply _ reversing_http _ custom_model ["a"; "bc"]
              ([] : list OpenRouter.FetchRequest)
              [OpenRouter.embeddings_request custom_model ["a"; "bc"]]
              response reply Hfetch eq_refl eq_refl)
    as (out & Hrun & Hlen & Hat & _).
  exists out. split; [exact Hrun|]. split; [exact Hlen|].
  apply (Hat 0%nat {| OpenRouter.embedding := text_embedding "bc" |}). reflexivity.
Defined.

(** ** Filters *)

Section Filters.

Context `{Runtime}.

Lemma obj_get_app k (o o' : JsObject) :
  obj_get k (o ++ o')%list = match obj_get k o with
                             | Some v => Some v
                             | None => obj_get k o'
                             end.
Proof.
  induction o as [|[k' v'] o IH]; cbn; [reflexivity|].
  destruct (String.eqb k k'); [reflexivity|exact IH].
Qed.

Lemma obj_set_fresh k v (o : JsObject) :
  obj_get k o = None -> obj_set k v o = (o ++ [(k, v)])%list.
Proof.
  induction o as [|[k' v'] o IH]; cbn; [reflexivity|].
  destruct (String.eqb k k'); [discriminate|].
  intros Hn. rewrite (IH Hn). reflexivity.
Qed.

Lemma where_clause_fold (entries acc : JsObject) :
  NoDup (map fst entries) ->
  "__proto__" ∉ map fst entries ->
  (forall k, k ∈ map fst entries -> obj_get k acc = None) ->
  fold_left
    (fun whereClause kv =>
       if String.eqb (fst kv) "__proto__" then whereClause
       else obj_set (fst kv) (JObj [("$eq", snd kv)]) whereClause)
    entries acc
  = (acc ++ map equality_test entries)%list.
Proof.
  revert acc. induction entries as [|[k v] entries IH]; intros acc Hnd Hproto Hfresh.
  - cbn. rewrite app_nil_r. reflexivity.
  - cbn [fold_left fst snd map] in *.
    apply NoDup_cons in Hnd as [Hk Hnd].
    apply not_elem_of_cons in Hproto as [Hne Hproto].
    destruct (String.eqb_spec k "__proto__") as [->|_]; [contradiction|].
    rewrite (obj_set_fresh k _ acc) by (apply Hfresh; left).
    rewrite IH; [|exact Hnd|exact Hproto|].
    + rewrite <- app_assoc. reflexivity.
    + intros k' Hk'. rewrite obj_get_app.
      rewrite (Hfresh k') by (right; exact Hk'). cbn.
      destruct (String.eqb_spec k' k) as [->|_]; [contradiction|reflexivity].
Qed.

(** C8, as amended: no filter is rejected.  [buildWhereClause] turns every
    entry of a filter into an equality test on the entry's value, whatever
    that value is, and gives no where clause for an absent filter.
    [parseFilterExpression] returns what [JSON.parse] yields, operators
    included; a text that is not JSON and holds exactly one [=] becomes one
    equality test between the trimmed sides; any other text yields no filter
    at all, and [query] then sends its request without a where clause. *)
Theorem filters_are_not_validated :
  buildWhereClause None = None
  /\ (forall entries : JsObject,
         NoDup (map fst entries) ->
         "__proto__" ∉ map fst entries ->
         buildWhereClause (Some entries) = Some (map equality_test entries))
  /\ (forall filter v,
         JSON_parse filter = Some v -> parseFilterExpression filter = Some v)
  /\ (forall filter key value,
         JSON_parse filter = None ->
         split "=" filter = [key; value] ->
         parseFilterExpression filter
         = Some (JObj [(trim key, JObj [("$eq", JStr (trim value))])]))
  /\ (forall filter,
         JSON_parse filter = None ->
         length (split "=" filter) <> 2%nat ->
         parseFilterExpression filter = None
         /\ forall limit, get_where (get_params filter limit) = None).
Proof.
  split; [reflexivity|]. split; [|split; [|split]].
  - intros entries Hnd Hproto. unfold buildWhereClause.
    rewrite where_clause_fold; try assumption; [reflexivity|].
    intros k _. reflexivity.
  - intros filter v Hp. unfold parseFilterExpression. rewrite Hp. reflexivity.
  - intros filter key value Hp Hs. unfold parseFilterExpression. rewrite Hp, Hs.
    reflexivity.
  - intros filter Hp Hlen.
    assert (Hnone : parseFilterExpression filter = None).
    { unfold parseFilterExpression. rewrite Hp.
      destruct (split "=" filter) as [|a [|b [|c l]]]; try reflexivity.
      cbn in Hlen. contradiction. }
    split; [exact Hnone|]. intros limit. unfold get_params. cbn. exact Hnone.
Qed.

End Filters.

(** C8 fails on the code: a filter with the operator [$gt] is not rejected
    but wrapped as the operand of an equality test; the text ["age > 5"],
    which cannot be parsed, is read as no filter, and the query then returns
    every document of the collection. *)
Lemma filter_operator_is_not_rejected :
  buildWhereClause (Some [("age", JObj [("$gt", JNum 5)])])
    = Some [("age", JObj [("$eq", JObj [("$gt", JNum 5)])])]
  /\ parseFilterExpression "age > 5" = None
  /\ exists rows,
       result (query "code" "age > 5" [] None) with_a_b = Return rows
       /\ map (obj_get "id") rows = [Some (JStr "a"); Some (JStr "b")].
Proof.
  split; [reflexivity|]. split; [vm_compute; reflexivity|].
  eexists. split; vm_compute; reflexivity.
Qed.

Lemma filters_are_not_validated_witness :
  JSON_parse "language = ts" = None
  /\ split "=" "language = ts" = ["language "; " ts"]
  /\ parseFilterExpression "language = ts"
     = Some (JObj [("language", JObj [("$eq", JStr "ts")])])
  /\ JSON_parse "language" = None
  /\ length (split "=" "language") <> 2%nat
  /\ parseFilterExpression "language" = None
  /\ buildWhereClause (Some [("language", JStr "go")])
     = Some [("language", JObj [("$eq", JStr "go")])].
Proof.
  destruct (@filters_are_not_validated reference_runtime)
    as (_ & Hbuild & _ & Hsplit & Hnone).
  assert (H1 : JSON_parse "language = ts" = None) by (vm_compute; reflexivity).
  assert (H2 : split "=" "language = ts" = ["language "; " ts"]) by reflexivity.
  assert (H3 : JSON_parse "language" = None) by (vm_compute; reflexivity).
  assert (H4 : length (split "=" "language") <> 2%nat) by (cbn; lia).
  split; [exact H1|]. split; [exact H2|].
  split; [exact (Hsplit "language = ts" "language " " ts" H1 H2)|].
  split; [exact H3|]. split; [exact H4|].
  split; [exact (proj1 (Hnone "language" H3 H4))|].
  apply (Hbuild [("language", JStr "go")]).
  - cbn. apply NoDup_singleton.
  - cbn. intros Hin. apply list_elem_of_singleton in Hin. discriminate Hin.
Defined.

(** ** What the adapter adds to the client's state: nothing

    Every change of the client's state made by an adapter method is made by
    a client request, so a property that every client request keeps is kept
    by every adapter method. *)

Section Preservation.

Context {B Col : Type} `{ChromaClient B Col} `{Runtime}.

Variable Inv : B -> Prop.

Hypothesis create_keeps : forall p, client_keeps Inv (client_createCollection p).
Hypothesis get_or_create_keeps : forall n, client_keeps Inv (client_getOrCreateCollection n).
Hypothesis delete_collection_keeps : forall n, client_keeps Inv (client_deleteCollection n).
Hypothesis list_keeps : client_keeps Inv client_listCollections.
Hypothesis add_keeps : forall c p, client_keeps Inv (collection_add c p).
Hypothesis query_keeps : forall c p, client_keeps Inv (collection_query c p).
Hypothesis get_keeps : forall c p, client_keeps Inv (collection_get c p).
Hypothesis delete_keeps : forall c l, client_keeps Inv (collection_delete c l).

Lemma keeps_ret {A} (v : A) :
  keeps Inv (ret v : Async (ChromaDBVectorDatabase B Col) A).
Proof. intros this Hi. exact Hi. Qed.

Lemma keeps_throw {A} (e : JsError) :
  keeps Inv (throw e : Async (ChromaDBVectorDatabase B Col) A).
Proof. intros this Hi. exact Hi. Qed.

Lemma keeps_pure {A} (f : ChromaDBVectorDatabase B Col -> Completion A) :
  keeps Inv (fun this => (f this, this)).
Proof. intros this Hi. exact Hi. Qed.

Lemma keeps_bind {A C} (m : Async (ChromaDBVectorDatabase B Col) A)
    (k : A -> Async (ChromaDBVectorDatabase B Col) C) :
  keeps Inv m -> (forall v, keeps Inv (k v)) -> keeps Inv (bind m k).
Proof.
  intros Hm Hk this Hi. unfold bind. specialize (Hm this Hi).
  destruct (m this) as [[v|e] this']; cbn in *; [apply Hk; exact Hm|exact Hm].
Qed.

Lemma keeps_try_catch {A} (m : Async (ChromaDBVectorDatabase B Col) A)
    (h : JsError -> Async (ChromaDBVectorDatabase B Col) A) :
  keeps Inv m -> (forall e, keeps Inv (h e)) -> keeps Inv (try_catch m h).
Proof.
  intros Hm Hh this Hi. unfold try_catch. specialize (Hm this Hi).
  destruct (m this) as [[v|e] this']; cbn in *; [exact Hm|apply Hh; exact Hm].
Qed.

Lemma keeps_call {A} (f : Async B A) :
  client_keeps Inv f -> keeps Inv (call f : Async (ChromaDBVectorDatabase B Col) A).
Proof.
  intros Hf this Hi. unfold call. specialize (Hf (client this) Hi).
  destruct (f (client this)) as [r b]. exact Hf.
Qed.

Lemma keeps_collections_set n (c : Col) :
  keeps Inv (collections_set n c : Async (ChromaDBVectorDatabase B Col) unit).
Proof. intros this Hi. exact Hi. Qed.

Lemma keeps_collections_delete n :
  keeps Inv (collections_delete n : Async (ChromaDBVectorDatabase B Col) unit).
Proof. intros this Hi. exact Hi. Qed.

Lemma keeps_createCollection n d s : keeps Inv (createCollection n d s).
Proof.
  apply keeps_try_catch.
  - apply keeps_bind; [apply keeps_call, create_keeps|].
    intros v. apply keeps_collections_set.
  - intros e. destruct (message_includes e "already exists"); [|apply keeps_throw].
    apply keeps_bind; [apply keeps_call, get_or_create_keeps|].
    intros v. apply keeps_collections_set.
Qed.

Lemma keeps_getOrCreateCollection n : keeps Inv (getOrCreateCollection n).
Proof.
  intros this Hi. unfold getOrCreateCollection.
  destruct (collections this !! n); [exact Hi|].
  revert this Hi. apply keeps_try_catch.
  - apply keeps_bind; [apply keeps_call, get_or_create_keeps|].
    intros v. apply keeps_bind; [apply keeps_collections_set|].
    intros _. apply keeps_ret.
  - intros _. apply keeps_bind; [apply keeps_createCollection|].
    intros _ this Hi. destruct (collections this !! n); exact Hi.
Qed.

Lemma keeps_search n q o : keeps Inv (search n q o).
Proof.
  apply keeps_bind; [apply keeps_getOrCreateCollection|]. intros c.
  apply keeps_bind; [apply keeps_call, query_keeps|]. intros r.
  destruct (res_metadatas r) as [[|row rows]|], (res_documents r), (res_distances r);
    first [apply keeps_ret | apply keeps_throw | apply keeps_pure].
Qed.

(** Every call of the adapter's interface keeps [Inv]. *)
Lemma after_keeps op (this : ChromaDBVectorDatabase B Col) :
  Inv (client this) -> Inv (client (after op this)).
Proof.
  revert this. destruct op; cbn [after].
  - apply keeps_createCollection.
  - apply keeps_createCollection.
  - apply keeps_try_catch.
    + apply keeps_bind; [apply keeps_call, delete_collection_keeps|].
      intros _. apply keeps_collections_delete.
    + intros e. destruct (negb (message_includes e "not found"));
        [apply keeps_throw|apply keeps_ret].
  - apply keeps_try_catch.
    + apply keeps_bind; [apply keeps_call, get_or_create_keeps|].
      intros _. apply keeps_ret.
    + intros _. apply keeps_ret.
  - apply keeps_bind; [apply keeps_call, list_keeps|]. intros v. apply keeps_ret.
  - apply keeps_bind; [apply keeps_getOrCreateCollection|].
    intros c. apply keeps_call, add_keeps.
  - apply keeps_bind; [apply keeps_getOrCreateCollection|].
    intros c. apply keeps_call, add_keeps.
  - apply keeps_search.
  - unfold hybridSearch.
    destruct (List.find _ requests); [|apply keeps_throw].
    apply keeps_bind; [apply keeps_search|]. intros v. apply keeps_ret.
  - apply keeps_bind; [apply keeps_getOrCreateCollection|].
    intros c. apply keeps_call, delete_keeps.
  - apply keeps_bind; [apply keeps_getOrCreateCollection|]. intros c.
    apply keeps_bind; [apply keeps_call, get_keeps|]. intros r.
    destruct (got_metadatas r), (got_documents r); apply keeps_ret.
  - apply keeps_ret.
Qed.

End Preservation.

(** ** The reference server keeps one record per id *)

Section ReferenceServer.

Implicit Types (server : Server) (c : StoredCollection).

Lemma has_id_spec (rs : list StoredRecord) (i : string) :
  has_id rs i = true <-> i ∈ map record_id rs.
Proof.
  unfold has_id. induction rs as [|r rs IH]; cbn.
  - split; [discriminate|]. intros Hin. inversion Hin.
  - rewrite orb_true_iff, IH, elem_of_cons, String.eqb_eq.
    split; intros [Heq|Hin]; auto.
Qed.

Lemma unique_ids_NoDup (l : list string) : unique_ids l = true -> NoDup l.
Proof.
  induction l as [|x l IH]; cbn; [constructor|].
  rewrite andb_true_iff, negb_true_iff. intros [Hx Hl].
  apply NoDup_cons. split; [|apply IH; exact Hl].
  intros Hin. apply list_elem_of_In in Hin.
  assert (existsb (String.eqb x) l = true) as Hex; [|congruence].
  apply existsb_exists. exists x. split; [exact Hin|apply String.eqb_refl].
Qed.

Lemma make_records_ids (i : list string) e m d (x : string) :
  x ∈ map record_id (make_records i e m d) -> x ∈ i.
Proof.
  revert e m d. induction i as [|i0 i IH]; intros [|e0 e] [|m0 m] [|d0 d]; cbn;
    try (intros Hin; inversion Hin; fail).
  rewrite !elem_of_cons. intros [->|Hin]; [left; reflexivity|right].
  eapply IH. exact Hin.
Qed.

Lemma make_records_NoDup (i : list string) e m d :
  NoDup i -> NoDup (map record_id (make_records i e m d)).
Proof.
  revert e m d. induction i as [|i0 i IH]; intros [|e0 e] [|m0 m] [|d0 d] Hnd; cbn;
    try apply NoDup_nil_2.
  apply NoDup_cons in Hnd as [Hi0 Hnd]. apply NoDup_cons. split.
  - intros Hin. apply Hi0. eapply make_records_ids. exact Hin.
  - apply IH. exact Hnd.
Qed.

Lemma filter_ids_subset (P : StoredRecord -> bool) (rs : list StoredRecord) (x : string) :
  x ∈ map record_id (List.filter P rs) -> x ∈ map record_id rs.
Proof.
  induction rs as [|r rs IH]; cbn; [auto|].
  destruct (P r); cbn; rewrite !elem_of_cons; intuition.
Qed.

Lemma filter_ids_NoDup (P : StoredRecord -> bool) (rs : list StoredRecord) :
  NoDup (map record_id rs) -> NoDup (map record_id (List.filter P rs)).
Proof.
  induction rs as [|r rs IH]; cbn; [auto|].
  intros Hnd. apply NoDup_cons in Hnd as [Hr Hnd].
  destruct (P r); cbn; [|apply IH; exact Hnd].
  apply NoDup_cons. split; [|apply IH; exact Hnd].
  intros Hin. apply Hr. eapply filter_ids_subset. exact Hin.
Qed.

Lemma filter_new_ids (old rs : list StoredRecord) (x : string) :
  x ∈ map record_id (List.filter (fun r => negb (has_id old (record_id r))) rs) ->
  x ∉ map record_id old.
Proof.
  induction rs as [|r rs IH]; cbn; [intros Hin; inversion Hin|].
  destruct (has_id old (record_id r)) eqn:Hh; cbn; [exact IH|].
  rewrite elem_of_cons. intros [->|Hin]; [|apply IH; exact Hin].
  intros Hold. apply has_id_spec in Hold. congruence.
Qed.

Lemma store_unique_insert server name c :
  store_unique server ->
  NoDup (map record_id (records c)) ->
  store_unique (<[name := c]> server).
Proof.
  intros Hs Hc n c' Hl. destruct (decide (name = n)) as [->|Hne].
  - rewrite lookup_insert_eq in Hl. injection Hl as <-. exact Hc.
  - rewrite lookup_insert_ne in Hl by exact Hne. eapply Hs. exact Hl.
Qed.

Lemma store_unique_delete server name :
  store_unique server -> store_unique (base.delete name server).
Proof.
  intros Hs n c Hl. destruct (decide (name = n)) as [->|Hne].
  - rewrite lookup_delete_eq in Hl. discriminate Hl.
  - rewrite lookup_delete_ne in Hl by exact Hne. eapply Hs. exact Hl.
Qed.

Lemma server_create_keeps p : client_keeps store_unique (server_create p).
Proof.
  intros server Hs. unfold server_create.
  destruct (server !! create_name p); cbn; [exact Hs|].
  apply store_unique_insert; [exact Hs|constructor].
Qed.

Lemma server_get_or_create_keeps n : client_keeps store_unique (server_get_or_create n).
Proof.
  intros server Hs. unfold server_get_or_create.
  destruct (server !! n); cbn; [exact Hs|].
  apply store_unique_insert; [exact Hs|constructor].
Qed.

Lemma server_delete_collection_keeps n :
  client_keeps store_unique (server_delete_collection n).
Proof.
  intros server Hs. unfold server_delete_collection.
  destruct (server !! n); cbn; [|exact Hs].
  apply store_unique_delete. exact Hs.
Qed.

Lemma server_add_keeps n p : client_keeps store_unique (server_add n p).
Proof.
  intros server Hs. unfold server_add.
  destruct (server !! n) as [c|] eqn:Hc; cbn; [|exact Hs].
  repeat match goal with
         | |- context [if ?b then _ else _] => destruct b eqn:?; cbn; [exact Hs|]
         end.
  apply store_unique_insert; [exact Hs|]. cbn.
  rewrite map_app. apply NoDup_app. split; [eapply Hs; exact Hc|]. split.
  - intros x Hold Hnew. eapply filter_new_ids; [exact Hnew|exact Hold].
  - apply filter_ids_NoDup, make_records_NoDup, unique_ids_NoDup.
    match goal with
    | Hu : negb (unique_ids _) = false |- _ => apply negb_false_iff in Hu; exact Hu
    end.
Qed.

Lemma server_query_keeps n p : client_keeps store_unique (server_query n p).
Proof.
  intros server Hs. unfold server_query.
  destruct (server !! n) as [c|]; cbn; [|exact Hs].
  destruct (select _ _); cbn; [|exact Hs].
  repeat match goal with
         | |- context [if ?b then _ else _] => destruct b; cbn; [exact Hs|]
         end.
  exact Hs.
Qed.

Lemma server_get_keeps n p : client_keeps store_unique (server_get n p).
Proof.
  intros server Hs. unfold server_get.
  destruct (server !! n) as [c|]; cbn; [|exact Hs].
  match goal with
  | |- context [match ?x with Some _ => _ | None => _ end] => destruct x; exact Hs
  end.
Qed.

Lemma server_delete_keeps n l : client_keeps store_unique (server_delete n l).
Proof.
  intros server Hs. unfold server_delete.
  destruct (server !! n) as [c|] eqn:Hc; cbn; [|exact Hs].
  apply store_unique_insert; [exact Hs|]. cbn.
  apply filter_ids_NoDup. eapply Hs. exact Hc.
Qed.

(** A batch of one document whose id is stored already changes nothing. *)
Lemma server_add_existing server name c (d : VectorDocument) server' :
  server !! name = Some c ->
  has_id (records c) (doc_id d) = true ->
  server_add name (add_params [d]) server = (Return tt, server') ->
  server' = server.
Proof.
  intros Hc Hid. unfold server_add. rewrite Hc. cbn.
  destruct (negb (_ && true)); [discriminate|].
  rewrite Hid. cbn. intros [= <-].
  rewrite app_nil_r. destruct c as [md rs]. cbn.
  apply insert_id. exact Hc.
Qed.

End ReferenceServer.

(** C2, as amended: on the reference ChromaDB server every call of the
    adapter keeps at most one stored document per collection and id, and
    [insert] of a document whose id the collection already stores creates no
    duplicate and replaces nothing: the batch goes to the client's [add],
    which leaves a stored record as it is, so the server is unchanged and
    the document keeps the vector, content and metadata it was first stored
    with. *)
Theorem insert_keeps_stored_document :
  (forall op (db : ChromaDBVectorDatabase Server string),
      store_unique (client db) -> store_unique (client (after op db)))
  /\ (forall (db db' : ChromaDBVectorDatabase Server string) name d c,
         handles_ok db ->
         client db !! name = Some c ->
         has_id (records c) (doc_id d) = true ->
         insert name [d] db = (Return tt, db') ->
         client db' = client db).
Proof.
  split.
  - intros op db. apply (after_keeps store_unique).
    + apply server_create_keeps.
    + apply server_get_or_create_keeps.
    + apply server_delete_collection_keeps.
    + intros server Hs. exact Hs.
    + apply server_add_keeps.
    + apply server_query_keeps.
    + apply server_get_keeps.
    + apply server_delete_keeps.
  - intros db db' name d c Hh Hc Hid. unfold insert, bind.
    assert (exists this1, getOrCreateCollection name db = (Return name, this1)
                          /\ client this1 = client db) as (this1 & Hg & Hcl).
    { destruct (collections db !! name) as [h|] eqn:Hcache.
      - rewrite (getOrCreateCollection_cached name db h Hcache).
        rewrite (Hh name h Hcache). eauto.
      - assert (Hs : client_getOrCreateCollection name (client db)
                     = (Return name, client db)).
        { cbn. unfold server_get_or_create. rewrite Hc. reflexivity. }
        rewrite (getOrCreateCollection_fetched name db name (client db) Hcache Hs).
        eauto. }
    rewrite Hg. unfold call. cbn [collection_add reference_client]. rewrite Hcl.
    destruct (server_add name (add_params [d]) (client db)) as [r server'] eqn:Ha.
    intros [= -> <-]. cbn.
    eapply server_add_existing; eauto.
Qed.

(** C2 fails on the code: ["x"] is stored with vector [[1; 0]]; inserting
    ["x"] again with vector [[0; 1]] succeeds, and the collection still
    holds the one document ["x"] with vector [[1; 0]] and its first
    content. *)
Lemma second_insert_does_not_replace :
  (records <$> client with_x !! "code")
    = Some [ {| record_id := "x";
                record_embedding := [1; 0]%Q;
                record_metadata := document_metadata (doc "x" [1; 0]%Q "first");
                record_document := "first" |} ]
  /\ result (insert "code" [doc "x" [0; 1]%Q "second"]) with_x = Return tt
  /\ (records <$> client (run (insert "code" [doc "x" [0; 1]%Q "second"]) with_x)
                    !! "code")
     = Some [ {| record_id := "x";
                 record_embedding := [1; 0]%Q;
                 record_metadata := document_metadata (doc "x" [1; 0]%Q "first");
                 record_document := "first" |} ]
  /\ [1; 0]%Q <> [0; 1]%Q.
Proof.
  repeat split; try (vm_compute; reflexivity). discriminate.
Qed.

Lemma insert_keeps_stored_document_witness :
  handles_ok with_x
  /\ has_id [ {| record_id := "x";
                 record_embedding := [1; 0]%Q;
                 record_metadata := document_metadata (doc "x" [1; 0]%Q "first");
                 record_document := "first" |} ]
            (doc_id (doc "x" [0; 1]%Q "second")) = true
  /\ client (run (insert "code" [doc "x" [0; 1]%Q "second"]) with_x) = client with_x.
Proof.
  assert (Hh : handles_ok with_x).
  { intros n h. unfold with_x, declared_768, run, fresh. cbn.
    destruct (decide ("code" = n)) as [<-|Hne].
    - vm_compute. intros [= <-]. reflexivity.
    - intros Hl. exfalso. revert Hl.
      change (collections
                (snd (insert "code" [doc "x" [1; 0]%Q "first"]
                        (snd (createCollection "code" 768 None
                                {| client := ∅; collections := ∅ |})))) !! n
              = Some h -> False).
      replace (collections
                 (snd (insert "code" [doc "x" [1; 0]%Q "first"]
                         (snd (createCollection "code" 768 None
                                 {| client := (∅ : Server); collections := ∅ |})))))
        with (<["code" := "code"]> (∅ : gmap string string))
        by (vm_compute; reflexivity).
      rewrite lookup_insert_ne by exact Hne. rewrite lookup_empty. discriminate. }
  split; [exact Hh|]. split; [reflexivity|].
  destruct insert_keeps_stored_document as [_ Hkeep].
  apply (Hkeep with_x (run (insert "code" [doc "x" [0; 1]%Q "second"]) with_x) "code"
           (doc "x" [0; 1]%Q "second")
           {| stored_metadata :=
                Some [("description", JStr "Collection for code");
                      ("dimension", JStr "768")];
              records :=
                [ {| record_id := "x";
                     record_embedding := [1; 0]%Q;
                     record_metadata := document_metadata (doc "x" [1; 0]%Q "first");
                     record_document := "first" |} ] |} Hh);
    vm_compute; reflexivity.
Defined.

(** ** Further properties of the collection registry *)

Section Registry.

Context {B Col : Type} `{ChromaClient B Col} `{Runtime}.

Implicit Types (this : ChromaDBVectorDatabase B Col) (name : string).

(** X1: [dropCollection] removes the cached handle only when the client's
    deletion succeeds.  An error whose message contains "not found" is
    swallowed and the cache is left as it was, so a handle cached for the
    missing collection stays cached; any other error is rethrown. *)
Theorem dropCollection_outcomes name this :
  (forall b,
      client_deleteCollection name (client this) = (Return tt, b) ->
      dropCollection name this
      = (Return tt, {| client := b; collections := base.delete name (collections this) |}))
  /\ (forall e b,
         client_deleteCollection name (client this) = (Throw e, b) ->
         dropCollection name this
         = if message_includes e "not found" then (Return tt, with_client b this)
           else (Throw e, with_client b this)).
Proof.
  split.
  - intros b Hd. unfold dropCollection, try_catch, bind, call. rewrite Hd. reflexivity.
  - intros e b Hd. unfold dropCollection, try_catch, bind, call. rewrite Hd. cbn.
    destruct (message_includes e "not found"); reflexivity.
Qed.

(** X2: [hasCollection] never throws and never touches the cache.  It
    answers [true] exactly when the client's get-or-create returns, so on a
    server that creates on get-or-create it answers [true] for a collection
    that did not exist, and leaves it created. *)
Theorem hasCollection_never_throws name this :
  exists answer b,
    hasCollection name this = (Return answer, with_client b this)
    /\ b = snd (client_getOrCreateCollection name (client this))
    /\ (answer = true <->
        exists col, fst (client_getOrCreateCollection name (client this)) = Return col).
Proof.
  unfold hasCollection, try_catch, bind, call.
  destruct (client_getOrCreateCollection name (client this)) as [[col|e] b]; cbn.
  - exists true, b. split; [reflexivity|]. split; [reflexivity|].
    split; [eauto|reflexivity].
  - exists false, b. split; [reflexivity|]. split; [reflexivity|].
    split; [discriminate|]. intros [col Hc]. discriminate Hc.
Qed.

(** X3: resolving a collection twice asks the client at most once: after a
    call that returned a handle, the next call returns the same handle from
    the cache and leaves the state as it is. *)
Theorem getOrCreateCollection_second_call_cached name this col this' :
  getOrCreateCollection name this = (Return col, this') ->
  getOrCreateCollection name this' = (Return col, this').
Proof.
  intros Hg. apply getOrCreateCollection_cached.
  eapply getOrCreateCollection_returns_cached. exact Hg.
Qed.

Lemma createCollection_throws name dimension description this e this' :
  createCollection name dimension description this = (Throw e, this') ->
  collections this' = collections this
  /\ ((client_createCollection (create_params name dimension description) (client this)
       = (Throw e, client this')
       /\ message_includes e "already exists" = false)
      \/ exists e0 b,
           client_createCollection (create_params name dimension description) (client this)
           = (Throw e0, b)
           /\ message_includes e0 "already exists" = true
           /\ client_getOrCreateCollection name b = (Throw e, client this')).
Proof.
  destruct (client_createCollection (create_params name dimension description)
              (client this)) as [[col|e0] b] eqn:Hc.
  - rewrite (createCollection_created _ _ _ _ _ _ Hc). discriminate.
  - destruct (message_includes e0 "already exists") eqn:He.
    + destruct (client_getOrCreateCollection name b) as [[col|e1] b'] eqn:Hg.
      * rewrite (createCollection_exists _ _ _ _ _ _ _ _ Hc He Hg). discriminate.
      * rewrite (createCollection_exists_throw _ _ _ _ _ _ _ _ Hc He Hg).
        intros [= <- <-]. split; [reflexivity|]. right. exists e0, b. auto.
    + rewrite (createCollection_rethrow _ _ _ _ _ _ Hc He).
      intros [= <- <-]. split; [reflexivity|]. left. auto.
Qed.

(** X4: resolving a collection fails only when the name is not cached, the
    client's get-or-create throws and the creation with dimension 1536 that
    follows throws too; the error reported is the creation's, the one of the
    get-or-create is dropped, and the cache is unchanged. *)
Theorem getOrCreateCollection_failure name this e this' :
  getOrCreateCollection name this = (Throw e, this') ->
  collections this !! name = None
  /\ collections this' = collections this
  /\ exists e1 b,
       client_getOrCreateCollection name (client this) = (Throw e1, b)
       /\ createCollection name 1536 None (with_client b this) = (Throw e, this').
Proof.
  destruct (collections this !! name) as [c|] eqn:Hc.
  { rewrite (getOrCreateCollection_cached _ _ _ Hc). discriminate. }
  destruct (client_getOrCreateCollection name (client this)) as [[c|e1] b] eqn:Hg.
  { rewrite (getOrCreateCollection_fetched _ _ _ _ Hc Hg). discriminate. }
  rewrite (getOrCreateCollection_fallback _ _ _ _ Hc Hg).
  destruct (createCollection name 1536 None (with_client b this)) as [[[]|e'] t] eqn:Hn.
  - destruct (createCollection_caches _ _ _ _ _ Hn) as [col Hcol].
    rewrite Hcol. discriminate.
  - intros [= <- <-]. split; [reflexivity|].
    destruct (createCollection_throws _ _ _ _ _ _ Hn) as [Hcache _].
    split; [exact Hcache|]. exists e1, b. auto.
Qed.

(** X5: after a successful [createCollection] the handle is cached, so an
    [insert] into that collection sends one request only, the [add]. *)
Theorem insert_after_createCollection name dimension description this this' :
  createCollection name dimension description this = (Return tt, this') ->
  exists col,
    collections this' !! name = Some col
    /\ forall docs,
         insert name docs this' = call (collection_add col (add_params docs)) this'.
Proof.
  intros Hc. destruct (createCollection_caches _ _ _ _ _ Hc) as [col Hcol].
  exists col. split; [exact Hcol|]. intros docs.
  unfold insert, bind. rewrite (getOrCreateCollection_cached _ _ _ Hcol). reflexivity.
Qed.

End Registry.

(** ** The cache changes at the named collection only *)

Section CacheFrame.

Context {B Col : Type} `{ChromaClient B Col} `{Runtime}.

Variable P : gmap string Col -> Prop.

Lemma cache_keeps_ret {A} (v : A) :
  cache_keeps P (ret v : Async (ChromaDBVectorDatabase B Col) A).
Proof. intros this Hp. exact Hp. Qed.

Lemma cache_keeps_throw {A} (e : JsError) :
  cache_keeps P (throw e : Async (ChromaDBVectorDatabase B Col) A).
Proof. intros this Hp. exact Hp. Qed.

Lemma cache_keeps_pure {A} (f : ChromaDBVectorDatabase B Col -> Completion A) :
  cache_keeps P (fun this => (f this, this)).
Proof. intros this Hp. exact Hp. Qed.

Lemma cache_keeps_bind {A C} (m : Async (ChromaDBVectorDatabase B Col) A)
    (k : A -> Async (ChromaDBVectorDatabase B Col) C) :
  cache_keeps P m -> (forall v, cache_keeps P (k v)) -> cache_keeps P (bind m k).
Proof.
  intros Hm Hk this Hp. unfold bind. specialize (Hm this Hp).
  destruct (m this) as [[v|e] this']; cbn in *; [apply Hk; exact Hm|exact Hm].
Qed.

Lemma cache_keeps_try_catch {A} (m : Async (ChromaDBVectorDatabase B Col) A)
    (h : JsError -> Async (ChromaDBVectorDatabase B Col) A) :
  cache_keeps P m -> (forall e, cache_keeps P (h e)) -> cache_keeps P (try_catch m h).
Proof.
  intros Hm Hh this Hp. unfold try_catch. specialize (Hm this Hp).
  destruct (m this) as [[v|e] this']; cbn in *; [exact Hm|apply Hh; exact Hm].
Qed.

Lemma cache_keeps_call {A} (f : Async B A) :
  cache_keeps P (call f : Async (ChromaDBVectorDatabase B Col) A).
Proof. intros this Hp. unfold call. destruct (f (client this)). exact Hp. Qed.

Section At.

Variable name : string.

Hypothesis set_keeps : forall (c : Col) cache, P cache -> P (<[name := c]> cache).
Hypothesis delete_keeps : forall cache, P cache -> P (base.delete name cache).

Lemma cache_keeps_createCollection d s : cache_keeps P (createCollection name d s).
Proof.
  apply cache_keeps_try_catch.
  - apply cache_keeps_bind; [apply cache_keeps_call|].
    intros c this Hp. cbn. apply set_keeps. exact Hp.
  - intros e. destruct (message_includes e "already exists"); [|apply cache_keeps_throw].
    apply cache_keeps_bind; [apply cache_keeps_call|].
    intros c this Hp. cbn. apply set_keeps. exact Hp.
Qed.

Lemma cache_keeps_getOrCreateCollection : cache_keeps P (getOrCreateCollection name).
Proof.
  intros this Hp. unfold getOrCreateCollection.
  destruct (collections this !! name); [exact Hp|].
  revert this Hp. apply cache_keeps_try_catch.
  - apply cache_keeps_bind; [apply cache_keeps_call|]. intros c.
    apply cache_keeps_bind; [|intros _; apply cache_keeps_ret].
    intros this Hp. cbn. apply set_keeps. exact Hp.
  - intros _. apply cache_keeps_bind; [apply cache_keeps_createCollection|].
    intros _ this Hp. destruct (collections this !! name); exact Hp.
Qed.

Lemma cache_keeps_search q o : cache_keeps P (search name q o).
Proof.
  apply cache_keeps_bind; [apply cache_keeps_getOrCreateCollection|]. intros c.
  apply cache_keeps_bind; [apply cache_keeps_call|]. intros r.
  destruct (res_metadatas r) as [[|row rows]|], (res_documents r), (res_distances r);
    first [apply cache_keeps_ret | apply cache_keeps_throw | apply cache_keeps_pure].
Qed.

End At.

End CacheFrame.

Section CacheFrameTheorem.

Context {B Col : Type} `{ChromaClient B Col} `{Runtime}.

Lemma after_cache_keeps (P : gmap string Col -> Prop) op
    (this : ChromaDBVectorDatabase B Col) :
  (forall n, operation_name op = Some n ->
     (forall (c : Col) cache, P cache -> P (<[n := c]> cache))
     /\ (forall cache, P cache -> P (base.delete n cache))) ->
  P (collections this) -> P (collections (after op this)).
Proof.
  intros Hop. revert this.
  destruct op; cbn [after operation_name] in *;
    try (destruct (Hop name eq_refl) as [Hset Hdel]).
  - apply cache_keeps_createCollection. exact Hset.
  - apply cache_keeps_createCollection. exact Hset.
  - apply cache_keeps_try_catch.
    + apply cache_keeps_bind; [apply cache_keeps_call|].
      intros _ this Hp. cbn. apply Hdel. exact Hp.
    + intros e. destruct (negb (message_includes e "not found"));
        [apply cache_keeps_throw|apply cache_keeps_ret].
  - apply cache_keeps_try_catch.
    + apply cache_keeps_bind; [apply cache_keeps_call|].
      intros _. apply cache_keeps_ret.
    + intros _. apply cache_keeps_ret.
  - apply cache_keeps_bind; [apply cache_keeps_call|]. intros v. apply cache_keeps_ret.
  - apply cache_keeps_bind; [apply cache_keeps_getOrCreateCollection; exact Hset|].
    intros c. apply cache_keeps_call.
  - apply cache_keeps_bind; [apply cache_keeps_getOrCreateCollection; exact Hset|].
    intros c. apply cache_keeps_call.
  - apply cache_keeps_search. exact Hset.
  - unfold hybridSearch.
    destruct (List.find _ requests); [|apply cache_keeps_throw].
    apply cache_keeps_bind; [apply cache_keeps_search; exact Hset|].
    intros v. apply cache_keeps_ret.
  - apply cache_keeps_bind; [apply cache_keeps_getOrCreateCollection; exact Hset|].
    intros c. apply cache_keeps_call.
  - apply cache_keeps_bind; [apply cache_keeps_getOrCreateCollection; exact Hset|].
    intros c. apply cache_keeps_bind; [apply cache_keeps_call|]. intros r.
    destruct (got_metadatas r), (got_documents r); apply cache_keeps_ret.
  - apply cache_keeps_ret.
Qed.

(** X6: a call changes the cache of handles at most under the collection
    name it was given: the handle cached under any other name is the same
    before and after, whether the call returns or throws, and a call that
    names no collection leaves the whole cache alone. *)
Theorem cache_changes_at_named_collection_only
    op (this : ChromaDBVectorDatabase B Col) (other : string) :
  operation_name op <> Some other ->
  collections (after op this) !! other = collections this !! other.
Proof.
  intros Hne.
  apply (after_cache_keeps
           (fun cache => cache !! other = collections this !! other) op this);
    [|reflexivity].
  intros n Hn. assert (n <> other) as Hno.
  { intros ->. apply Hne. exact Hn. }
  split.
  - intros c cache Hp. rewrite lookup_insert_ne by exact Hno. exact Hp.
  - intros cache Hp. rewrite lookup_delete_ne by exact Hno. exact Hp.
Qed.

End CacheFrameTheorem.

Lemma getOrCreateCollection_second_call_cached_witness :
  getOrCreateCollection "notes" fresh
  = (Return "notes",
     cached "notes" "notes"
            (<["notes" := {| stored_metadata := None; records := [] |}]> ∅) fresh)
  /\ getOrCreateCollection "notes"
       (cached "notes" "notes"
               (<["notes" := {| stored_metadata := None; records := [] |}]> ∅) fresh)
     = (Return "notes",
        cached "notes" "notes"
               (<["notes" := {| stored_metadata := None; records := [] |}]> ∅) fresh).
Proof.
  assert (Hg : getOrCreateCollection "notes" fresh
               = (Return "notes",
                  cached "notes" "notes"
                         (<["notes" := {| stored_metadata := None; records := [] |}]> ∅)
                         fresh)) by (vm_compute; reflexivity).
  split; [exact Hg|].
  exact (getOrCreateCollection_second_call_cached "notes" fresh "notes" _ Hg).
Defined.

Lemma getOrCreateCollection_failure_witness :
  @getOrCreateCollection _ _ offline_client "notes" fresh
  = (Throw (Error "Failed to fetch"), fresh)
  /\ collections fresh !! "notes" = None
  /\ exists e1 b,
       @client_getOrCreateCollection _ _ offline_client "notes" (client fresh)
       = (Throw e1, b)
       /\ @createCollection _ _ offline_client "notes" 1536 None (with_client b fresh)
          = (Throw (Error "Failed to fetch"), fresh).
Proof.
  assert (Hg : @getOrCreateCollection _ _ offline_client "notes" fresh
               = (Throw (Error "Failed to fetch"), fresh)) by (vm_compute; reflexivity).
  split; [exact Hg|].
  destruct (@getOrCreateCollection_failure _ _ offline_client "notes" fresh
              (Error "Failed to fetch") fresh Hg) as (Hnone & _ & Hex).
  split; [exact Hnone|exact Hex].
Defined.

Lemma insert_after_createCollection_witness :
  createCollection "code" 768 None fresh = (Return tt, declared_768)
  /\ exists col,
       collections declared_768 !! "code" = Some col
       /\ forall docs,
            insert "code" docs declared_768
            = call (collection_add col (add_params docs)) declared_768.
Proof.
  assert (Hc : createCollection "code" 768 None fresh = (Return tt, declared_768))
    by (vm_compute; reflexivity).
  split; [exact Hc|].
  exact (insert_after_createCollection "code" 768 None fresh declared_768 Hc).
Defined.

Lemma cache_changes_at_named_collection_only_witness :
  operation_name (OpDropCollection "notes") <> Some "code"
  /\ collections (after (OpDropCollection "notes") with_x) !! "code"
     = collections with_x !! "code".
Proof.
  assert (Hne : operation_name (OpDropCollection "notes") <> Some "code")
    by discriminate.
  split; [exact Hne|].
  exact (cache_changes_at_named_collection_only (OpDropCollection "notes") with_x "code"
           Hne).
Defined.

(** ** Further properties of [search] and [query] *)

Section Replies.

Context {B Col : Type} `{ChromaClient B Col} `{Runtime}.

Implicit Types (this : ChromaDBVectorDatabase B Col) (name : string).

Lemma map_from_returns queryVector results (row : list (option JsObject)) k found :
  map_from (search_result queryVector results) k row = Return found ->
  length found = length row
  /\ forall i r, found !! i = Some r ->
       vector (document r) = queryVector
       /\ row !! i = Some (Some (metadata (document r)))
       /\ doc_id (document r) = str_or (at_row0 (res_ids results) (k + i)) ""
       /\ score r = (1 - num_or (at_row0 (res_distances results) (k + i)) 0)%Q.
Proof.
  revert k found. induction row as [|[m|] row IH]; intros k found; cbn.
  - intros [= <-]. split; [reflexivity|]. intros i r Hi. discriminate Hi.
  - destruct (map_from (search_result queryVector results) (S k) row) as [rs|e] eqn:Hrs;
      [|discriminate].
    intros [= <-]. destruct (IH (S k) rs Hrs) as [Hlen Hat].
    split; [cbn; rewrite Hlen; reflexivity|].
    intros [|i] r Hi.
    + injection Hi as <-. cbn. rewrite Nat.add_0_r. auto.
    + cbn in Hi. replace (k + S i)%nat with (S k + i)%nat by lia. cbn. apply Hat. exact Hi.
  - discriminate.
Qed.

Lemma map_from_null queryVector results (row : list (option JsObject)) k :
  None ∈ row ->
  map_from (search_result queryVector results) k row = Throw null_metadata_error.
Proof.
  revert k. induction row as [|[m|] row IH]; intros k Hin.
  - inversion Hin.
  - apply elem_of_cons in Hin as [Hin|Hin]; [discriminate Hin|].
    cbn. rewrite (IH (S k) Hin). reflexivity.
  - reflexivity.
Qed.

Lemma search_resolved name queryVector options this col this1 results b :
  getOrCreateCollection name this = (Return col, this1) ->
  collection_query col (query_params queryVector options) (client this1)
    = (Return results, b) ->
  search name queryVector options this =
    match res_metadatas results, res_documents results, res_distances results with
    | Some metadatas, Some _, Some _ =>
        match metadatas with
        | [] => (Throw (TypeError "Cannot read properties of undefined (reading 'map')"),
                 with_client b this1)
        | row :: _ =>
            (map_from (search_result queryVector results) 0 row, with_client b this1)
        end
    | _, _, _ => (Return [], with_client b this1)
    end.
Proof.
  intros Hg Hq. unfold search, bind. rewrite Hg. unfold call. rewrite Hq.
  destruct (res_metadatas results) as [[|row rows]|], (res_documents results),
    (res_distances results); reflexivity.
Qed.

(** X7: a result of [search] never carries the stored vector: the [vector]
    of every returned document is the query vector itself. *)
Theorem search_returns_query_vector name queryVector options this found this' :
  search name queryVector options this = (Return found, this') ->
  forall r, r ∈ found -> vector (document r) = queryVector.
Proof.
  destruct (getOrCreateCollection name this) as [[col|e] this1] eqn:Hg;
    [|unfold search, bind; rewrite Hg; discriminate].
  destruct (collection_query col (query_params queryVector options) (client this1))
    as [[results|e] b] eqn:Hq;
    [|unfold search, bind, call; rewrite Hg, Hq; discriminate].
  rewrite (search_resolved _ _ _ _ _ _ _ _ Hg Hq).
  destruct (res_metadatas results) as [[|row rows]|], (res_documents results),
    (res_distances results);
    try (intros [= <- <-] r Hr; inversion Hr; fail); try discriminate.
  intros [= Hmap <-] r Hr.
  apply list_elem_of_lookup in Hr as [i Hi].
  destruct (map_from_returns _ _ _ _ _ Hmap) as [_ Hat].
  apply (Hat i r Hi).
Qed.

(** X8: what [search] makes of an incomplete reply.  When the reply lacks
    its metadatas, documents or distances, the result is the empty list,
    whatever else the reply holds.  When all three are there, an empty list
    of rows makes [search] throw, and so does a single null metadata in the
    first row, however many well-formed entries the row has. *)
Theorem search_incomplete_reply name queryVector options this col this1 results b :
  getOrCreateCollection name this = (Return col, this1) ->
  collection_query col (query_params queryVector options) (client this1)
    = (Return results, b) ->
  (res_metadatas results = None \/ res_documents results = None
   \/ res_distances results = None ->
   search name queryVector options this = (Return [], with_client b this1))
  /\ (res_documents results <> None -> res_distances results <> None ->
      res_metadatas results = Some [] ->
      search name queryVector options this
      = (Throw (TypeError "Cannot read properties of undefined (reading 'map')"),
         with_client b this1))
  /\ (res_documents results <> None -> res_distances results <> None ->
      forall row rest,
        res_metadatas results = Some (row :: rest) ->
        None ∈ row ->
        search name queryVector options this
        = (Throw null_metadata_error, with_client b this1)).
Proof.
  intros Hg Hq. rewrite (search_resolved _ _ _ _ _ _ _ _ Hg Hq).
  split; [|split].
  - intros [Hm|[Hd|Hx]].
    + rewrite Hm. reflexivity.
    + rewrite Hd. destruct (res_metadatas results); reflexivity.
    + rewrite Hx. destruct (res_metadatas results), (res_documents results); reflexivity.
  - intros Hd Hx Hm. rewrite Hm.
    destruct (res_documents results); [|contradiction].
    destruct (res_distances results); [|contradiction]. reflexivity.
  - intros Hd Hx row rest Hm Hnull. rewrite Hm.
    destruct (res_documents results); [|contradiction].
    destruct (res_distances results); [|contradiction].
    rewrite (map_from_null _ _ _ _ Hnull). reflexivity.
Qed.

(** X9: [search] fills what the reply leaves out.  With the first metadata
    row complete, there is one result per entry of that row; a result whose
    id is missing from the reply gets the empty id, and one whose distance is
    missing, or is zero, gets the top score 1. *)
Theorem search_fills_missing_entries
    name queryVector options this col this1 results b ms rest docs dists :
  getOrCreateCollection name this = (Return col, this1) ->
  collection_query col (query_params queryVector options) (client this1)
    = (Return results, b) ->
  res_metadatas results = Some ((Some <$> ms) :: rest) ->
  res_documents results = Some docs ->
  res_distances results = Some dists ->
  exists found,
    search name queryVector options this = (Return found, with_client b this1)
    /\ length found = length ms
    /\ forall i r, found !! i = Some r ->
         ms !! i = Some (metadata (document r))
         /\ (at_row0 (res_ids results) i = None -> doc_id (document r) = "")
         /\ (at_row0 (res_distances results) i = None -> score r = (1 - 0)%Q)
         /\ (forall d, at_row0 (res_distances results) i = Some d -> (d == 0)%Q ->
               score r = (1 - 0)%Q).
Proof.
  intros Hg Hq Hm Hd Hx. rewrite (search_resolved _ _ _ _ _ _ _ _ Hg Hq).
  rewrite Hm, Hd, Hx.
  destruct (map_from_search_result queryVector results ms 0) as (found & Hmap & Hlen & _).
  exists found. rewrite Hmap. split; [reflexivity|]. split; [exact Hlen|].
  intros i r Hi.
  destruct (map_from_returns _ _ _ _ _ Hmap) as [_ Hat].
  destruct (Hat i r Hi) as (_ & Hrow & Hid & Hs). cbn in Hid, Hs.
  rewrite Hx in Hs.
  split; [|split; [|split]].
  - rewrite list_lookup_fmap in Hrow.
    destruct (ms !! i); cbn in Hrow; [|discriminate]. congruence.
  - intros Hnone. rewrite Hid, Hnone. reflexivity.
  - intros Hnone. rewrite Hs, Hnone. reflexivity.
  - intros d Hsome Hz. rewrite Hs, Hsome. cbn.
    apply Qeq_bool_iff in Hz. rewrite Hz. reflexivity.
Qed.

End Replies.

(** ** Objects, metadata and limits *)

Section Objects.

Lemma obj_get_set k k' v (o : JsObject) :
  obj_get k (obj_set k' v o) = if String.eqb k k' then Some v else obj_get k o.
Proof.
  induction o as [|[k0 v0] o IH]; cbn; [reflexivity|].
  destruct (String.eqb_spec k' k0) as [->|Hne]; cbn.
  - destruct (String.eqb k k0); reflexivity.
  - rewrite IH. destruct (String.eqb_spec k k0) as [->|Hne'].
    + destruct (String.eqb_spec k0 k') as [<-|_]; [contradiction|reflexivity].
    + reflexivity.
Qed.

(** A property of [{ ...target, ...source }] is the last one [source] gives
    it, or else the one [target] has. *)
Lemma obj_get_spread k (target source : JsObject) :
  obj_get k (obj_spread target source)
  = match obj_get k (rev source) with
    | Some v => Some v
    | None => obj_get k target
    end.
Proof.
  unfold obj_spread. revert target.
  induction source as [|[k0 v0] source IH]; intros target; cbn [fold_left rev];
    [reflexivity|].
  rewrite IH. cbn [fst snd]. rewrite obj_get_app. rewrite obj_get_set.
  destruct (obj_get k (rev source)); [reflexivity|]. cbn.
  destruct (String.eqb k k0); reflexivity.
Qed.

End Objects.

Section Metadata.

Context `{Runtime}.

(** X10: the metadata [insert] stores for a document.  A key the caller's
    metadata defines wins, also over the adapter's own fields; otherwise
    [content], [relativePath] and [fileExtension] are the document's,
    [startLine] and [endLine] are its line numbers in decimal, and no other
    key is present. *)
Theorem document_metadata_fields (doc : VectorDocument) :
  (forall k v, obj_get k (rev (metadata doc)) = Some v ->
     obj_get k (document_metadata doc) = Some v)
  /\ (forall k, obj_get k (rev (metadata doc)) = None ->
        obj_get k (document_metadata doc)
        = if String.eqb k "content" then Some (JStr (content doc))
          else if String.eqb k "relativePath" then Some (relativePath doc)
          else if String.eqb k "startLine" then Some (JStr (pretty (startLine doc)))
          else if String.eqb k "endLine" then Some (JStr (pretty (endLine doc)))
          else if String.eqb k "fileExtension" then Some (fileExtension doc)
          else None).
Proof.
  split; intros k; [intros v|]; intros Hk; unfold document_metadata;
    rewrite obj_get_spread, Hk; reflexivity.
Qed.

(** X11: the adapter never asks the server for zero results.  [search] asks
    for [topK], or for 10 when [topK] is absent or zero; [query] asks for
    [limit], or for 100 when it is absent or zero; [hybridSearch] asks for
    the options' limit, else for the dense request's, else for 10. *)
Theorem requested_limits_never_zero :
  (forall q o,
      nResults (query_params q o) <> 0%Z
      /\ nResults (query_params q o)
         = match topK o with
           | Some n => if Z.eqb n 0 then 10%Z else n
           | None => 10%Z
           end)
  /\ (forall f l,
         get_limit (get_params f l) <> 0%Z
         /\ get_limit (get_params f l)
            = match l with
              | Some n => if Z.eqb n 0 then 100%Z else n
              | None => 100%Z
              end)
  /\ (forall v options dense,
         nResults (query_params v (dense_options options dense))
         = match options_limit options with
           | Some n =>
               if Z.eqb n 0 then (if Z.eqb (limit dense) 0 then 10%Z else limit dense)
               else n
           | None => if Z.eqb (limit dense) 0 then 10%Z else limit dense
           end).
Proof.
  split; [|split].
  - intros q o. unfold query_params. cbn. unfold int_or.
    destruct (topK o) as [n|]; [|split; [discriminate|reflexivity]].
    destruct (Z.eqb_spec n 0); split; try reflexivity; [discriminate|assumption].
  - intros f l. unfold get_params. cbn. unfold int_or.
    destruct l as [n|]; [|split; [discriminate|reflexivity]].
    destruct (Z.eqb_spec n 0); split; try reflexivity; [discriminate|assumption].
  - intros v options dense. unfold query_params, dense_options. cbn. unfold int_or.
    destruct (options_limit options) as [n|].
    + destruct (Z.eqb_spec n 0) as [->|Hn].
      * destruct (Z.eqb (limit dense) 0); reflexivity.
      * destruct (Z.eqb_spec n 0); [contradiction|reflexivity].
    + destruct (Z.eqb (limit dense) 0); reflexivity.
Qed.

End Metadata.

Section Query.

Context {B Col : Type} `{ChromaClient B Col} `{Runtime}.

Implicit Types (this : ChromaDBVectorDatabase B Col) (name : string).

(** X12: the rows of [query].  When the reply lacks its metadatas or its
    documents the result is empty.  Otherwise there is one row per metadata
    entry and no row makes [query] throw: a null metadata gives a row of
    just [id] and [content], read from the reply or empty when missing, and
    a metadata object adds its properties, its own [id] and [content]
    replacing the reply's. *)
Theorem query_rows name filter outputFields limit this col this1 results b :
  getOrCreateCollection name this = (Return col, this1) ->
  collection_get col (get_params filter limit) (client this1) = (Return results, b) ->
  (got_metadatas results = None \/ got_documents results = None ->
   query name filter outputFields limit this = (Return [], with_client b this1))
  /\ (forall ms docs,
         got_metadatas results = Some ms ->
         got_documents results = Some docs ->
         exists rows,
           query name filter outputFields limit this = (Return rows, with_client b this1)
           /\ length rows = length ms
           /\ forall i row, rows !! i = Some row ->
                let own :=
                  [("id", JStr (str_or (at_index (got_ids results) i) ""));
                   ("content",
                    JStr (str_or (mjoin (at_index (got_documents results) i)) ""))] in
                (ms !! i = Some None -> row = own)
                /\ (forall m, ms !! i = Some (Some m) ->
                      forall k, obj_get k row
                                = match obj_get k (rev m) with
                                  | Some v => Some v
                                  | None => obj_get k own
                                  end)).
Proof.
  intros Hg Hq.
  assert (E : query name filter outputFields limit this =
              match got_metadatas results, got_documents results with
              | Some metadatas, Some _ =>
                  (Return (imap (query_row results) metadatas), with_client b this1)
              | _, _ => (Return [], with_client b this1)
              end).
  { unfold query, bind. rewrite Hg. unfold call. rewrite Hq.
    destruct (got_metadatas results), (got_documents results); reflexivity. }
  rewrite E. split.
  - intros [Hm|Hd]; [rewrite Hm; reflexivity|].
    rewrite Hd. destruct (got_metadatas results); reflexivity.
  - intros ms docs Hm Hd. rewrite Hm, Hd.
    exists (imap (query_row results) ms). split; [reflexivity|].
    split; [apply length_imap|].
    intros i row Hi own. rewrite list_lookup_imap in Hi.
    split.
    + intros Hnone. rewrite Hnone in Hi.
      cbn [fmap option_fmap option_map] in Hi. injection Hi as <-.
      unfold query_row. rewrite Hd. reflexivity.
    + intros m Hsome k. rewrite Hsome in Hi.
      cbn [fmap option_fmap option_map] in Hi. injection Hi as <-.
      unfold query_row. rewrite obj_get_spread. rewrite Hd. reflexivity.
Qed.

End Query.

Lemma search_returns_query_vector_witness :
  exists found,
    search "code" [1; 0]%Q default_SearchOptions with_a_b = (Return found, with_a_b)
    /\ length found = 2%nat
    /\ forall r, r ∈ found -> vector (document r) = [1; 0]%Q.
Proof.
  eexists. split; [vm_compute; reflexivity|]. split; [reflexivity|].
  apply (search_returns_query_vector "code" [1; 0]%Q default_SearchOptions with_a_b _
           with_a_b).
  vm_compute. reflexivity.
Defined.

Lemma search_incomplete_reply_witness :
  @getOrCreateCollection _ _ (canned_client reply_with_null) "code" with_x
  = (Return "code", with_x)
  /\ @collection_query _ _ (canned_client reply_with_null) "code"
       (query_params [1; 0]%Q default_SearchOptions) (client with_x)
     = (Return reply_with_null, client with_x)
  /\ @search _ _ (canned_client reply_with_null) _ "code" [1; 0]%Q default_SearchOptions
       with_x
     = (Throw null_metadata_error, with_client (client with_x) with_x).
Proof.
  assert (Hg : @getOrCreateCollection _ _ (canned_client reply_with_null) "code" with_x
               = (Return "code", with_x)) by (vm_compute; reflexivity).
  assert (Hq : @collection_query _ _ (canned_client reply_with_null) "code"
                 (query_params [1; 0]%Q default_SearchOptions) (client with_x)
               = (Return reply_with_null, client with_x)) by reflexivity.
  split; [exact Hg|]. split; [exact Hq|].
  destruct (@search_incomplete_reply _ _ (canned_client reply_with_null) _ "code"
              [1; 0]%Q default_SearchOptions with_x "code" with_x reply_with_null
              (client with_x) Hg Hq) as (_ & _ & Hnull).
  apply (Hnull ltac:(discriminate) ltac:(discriminate)
               [Some [("language", JStr "ts")]; None] [] eq_refl).
  apply list_elem_of_further, list_elem_of_here.
Defined.

Lemma search_fills_missing_entries_witness :
  @getOrCreateCollection _ _ (canned_client reply_with_gaps) "code" with_x
  = (Return "code", with_x)
  /\ @collection_query _ _ (canned_client reply_with_gaps) "code"
       (query_params [1; 0]%Q default_SearchOptions) (client with_x)
     = (Return reply_with_gaps, client with_x)
  /\ exists found r,
       @search _ _ (canned_client reply_with_gaps) _ "code" [1; 0]%Q
         default_SearchOptions with_x
       = (Return found, with_client (client with_x) with_x)
       /\ found !! 1%nat = Some r
       /\ doc_id (document r) = ""
       /\ score r = (1 - 0)%Q.
Proof.
  assert (Hg : @getOrCreateCollection _ _ (canned_client reply_with_gaps) "code" with_x
               = (Return "code", with_x)) by (vm_compute; reflexivity).
  assert (Hq : @collection_query _ _ (canned_client reply_with_gaps) "code"
                 (query_params [1; 0]%Q default_SearchOptions) (client with_x)
               = (Return reply_with_gaps, client with_x)) by reflexivity.
  split; [exact Hg|]. split; [exact Hq|].
  destruct (@search_fills_missing_entries _ _ (canned_client reply_with_gaps) _ "code"
              [1; 0]%Q default_SearchOptions with_x "code" with_x reply_with_gaps
              (client with_x) [[("language", JStr "ts")]; [("language", JStr "go")]] []
              [[Some "first"; Some "second"]] [[1 # 4]] Hg Hq eq_refl eq_refl eq_refl)
    as (found & Hs & Hlen & Hat).
  destruct found as [|r0 [|r1 found]]; try discriminate Hlen.
  exists (r0 :: r1 :: found), r1. split; [exact Hs|]. split; [reflexivity|].
  destruct (Hat 1%nat r1 eq_refl) as (_ & Hid & Hscore & _).
  split; [apply Hid; reflexivity|apply Hscore; reflexivity].
Defined.

Lemma query_rows_witness :
  getOrCreateCollection "code" with_a_b = (Return "code", with_a_b)
  /\ (exists results,
        collection_get "code" (get_params "language = ts" None) (client with_a_b)
        = (Return results, client with_a_b)
        /\ got_metadatas results <> None /\ got_documents results <> None)
  /\ exists rows,
       query "code" "language = ts" [] None with_a_b
       = (Return rows, with_client (client with_a_b) with_a_b)
       /\ length rows = 2%nat.
Proof.
  assert (Hg : getOrCreateCollection "code" with_a_b = (Return "code", with_a_b))
    by (vm_compute; reflexivity).
  destruct (collection_get "code" (get_params "language = ts" None) (client with_a_b))
    as [[results|e] b] eqn:Hq; [|vm_compute in Hq; discriminate Hq].
  assert (Hb : b = client with_a_b).
  { vm_compute in Hq. injection Hq as _ <-. vm_compute. reflexivity. }
  subst b.
  destruct (got_metadatas results) as [ms|] eqn:Hm;
    [|vm_compute in Hq; injection Hq as <-; discriminate Hm].
  destruct (got_documents results) as [docs|] eqn:Hd;
    [|vm_compute in Hq; injection Hq as <-; discriminate Hd].
  split; [exact Hg|]. split.
  - exists results. rewrite Hm, Hd. repeat split; [discriminate|discriminate].
  - destruct (query_rows "code" "language = ts" [] None with_a_b "code" with_a_b results
                (client with_a_b) Hg Hq) as [_ Hrows].
    destruct (Hrows ms docs Hm Hd) as (rows & Hrun & Hlen & _).
    exists rows. split; [exact Hrun|]. rewrite Hlen.
    vm_compute in Hq. injection Hq as <-. cbn in Hm. injection Hm as <-. reflexivity.
Defined.

(** ** Further properties of the embedding provider *)

Section ProviderFacts.

Import OpenRouter.

Context {N : Type} `{Http N} `{EmbeddingBase}.

Lemma embedBatch_outcome config texts (n : N) :
  embedBatch config texts n =
    match fetch (embeddings_request config (preprocessTexts maxTokens texts)) n with
    | (Return response, n') =>
        if ok response then
          match json response with
          | Return reply => (Return (map as_vector (data reply)), n')
          | Throw e => (Throw e, n')
          end
        else
          (Throw (Error ("OpenRouter API error: " ++ pretty (status response) ++ " "
                         ++ statusText response)), n')
    | (Throw e, n') => (Throw e, n')
    end.
Proof.
  unfold embedBatch, bind.
  destruct (fetch (embeddings_request config (preprocessTexts maxTokens texts)) n)
    as [[response|e] n']; [|reflexivity].
  destruct (ok response); cbn; [|reflexivity].
  destruct (json response); reflexivity.
Qed.

(** X13: [embedBatch] sends exactly one request per call, with all the
    texts in it, also for an empty list and also when it fails: the state it
    leaves the service in is the state that one request leaves.  A response
    that is not [ok] makes it throw an error naming the status, without the
    body being read; an error of [fetch] or of reading the body is passed
    on. *)
Theorem embedBatch_single_request config texts (n : N) :
  snd (embedBatch config texts n)
  = snd (fetch (embeddings_request config (preprocessTexts maxTokens texts)) n)
  /\ body_input (body (embeddings_request config (preprocessTexts maxTokens texts)))
     = preprocessTexts maxTokens texts
  /\ (forall e n',
        fetch (embeddings_request config (preprocessTexts maxTokens texts)) n
        = (Throw e, n') ->
        embedBatch config texts n = (Throw e, n'))
  /\ (forall response n',
        fetch (embeddings_request config (preprocessTexts maxTokens texts)) n
        = (Return response, n') ->
        ok response = false ->
        embedBatch config texts n
        = (Throw (Error ("OpenRouter API error: " ++ pretty (status response) ++ " "
                         ++ statusText response)), n'))
  /\ (forall response n' e,
        fetch (embeddings_request config (preprocessTexts maxTokens texts)) n
        = (Return response, n') ->
        ok response = true ->
        json response = Throw e ->
        embedBatch config texts n = (Throw e, n')).
Proof.
  rewrite embedBatch_outcome.
  destruct (fetch (embeddings_request config (preprocessTexts maxTokens texts)) n)
    as [[response|e] n'] eqn:Hf.
  - split; [destruct (ok response); [destruct (json response)|]; reflexivity|].
    split; [reflexivity|]. split; [discriminate|]. split.
    + intros r n0 [= <- <-] Hok. rewrite Hok. reflexivity.
    + intros r n0 e [= <- <-] Hok Hj. rewrite Hok, Hj. reflexivity.
  - split; [reflexivity|]. split; [reflexivity|]. split.
    + intros e0 n0 [= <- <-]. reflexivity.
    + split; discriminate.
Qed.

(** X14: every embedding [embedBatch] returns states its own length as its
    dimension, and the embeddings are as many as the items of the reply, in
    the reply's order, whatever the number of texts that were sent. *)
Theorem embedBatch_dimension_is_length config texts (n n' : N) out :
  embedBatch config texts n = (Return out, n') ->
  (forall v, v ∈ out -> dimension v = Z.of_nat (length (vector v)))
  /\ exists response reply,
       fetch (embeddings_request config (preprocessTexts maxTokens texts)) n
       = (Return response, n')
       /\ json response = Return reply
       /\ map vector out = map embedding (data reply).
Proof.
  rewrite embedBatch_outcome.
  destruct (fetch (embeddings_request config (preprocessTexts maxTokens texts)) n)
    as [[response|e] n0] eqn:Hf; [|discriminate].
  destruct (ok response); [|discriminate].
  destruct (json response) as [reply|e] eqn:Hj; [|discriminate].
  intros [= <- <-]. split.
  - intros v Hv. apply list_elem_of_fmap in Hv as (item & -> & _). reflexivity.
  - exists response, reply. split; [reflexivity|]. split; [exact Hj|].
    rewrite <- list_fmap_compose. reflexivity.
Qed.

(** X15: [embed] sends the one text as a batch and returns the first
    embedding of the reply, whatever else the reply holds; when the reply
    holds no item it returns [undefined] without an error. *)
Theorem embed_first_of_reply config text (n n' : N) response reply :
  fetch (embeddings_request config (preprocessTexts maxTokens [text])) n
  = (Return response, n') ->
  ok response = true ->
  json response = Return reply ->
  embed config text n = (Return (as_vector <$> head (data reply)), n').
Proof.
  intros Hf Hok Hj. unfold embed, bind. rewrite embedBatch_outcome, Hf, Hok, Hj.
  cbn. destruct (data reply); reflexivity.
Qed.

(** X16: the list of supported models and the table of dimensions name the
    same models in the same order, and [getDimension] returns for each of
    them the table's value, one of 384, 768, 1024, 1536 and 3072. *)
Theorem supported_models_have_dimensions :
  map fst modelDimensions = getSupportedModels
  /\ forall config,
       In (model config) getSupportedModels ->
       exists d,
         table_get (model config) modelDimensions = Some d
         /\ getDimension config = Dimension d
         /\ In d [384; 768; 1024; 1536; 3072]%Z.
Proof.
  split; [reflexivity|].
  intros config Hin. unfold getDimension.
  unfold getSupportedModels in Hin. cbn [In] in Hin.
  repeat (destruct Hin as [<-|Hin];
          [eexists; split; [reflexivity|]; split; [reflexivity|]; cbn; tauto|]).
  contradiction.
Qed.

(** X17: [getDimension] returns a number, and a positive one, unless the
    model is named like a property every object inherits ("toString",
    "constructor", ...): then it returns that property instead.  No such
    name is in the table. *)
Theorem getDimension_number_unless_inherited config :
  (inherited (model config) = true ->
   getDimension config = InheritedProperty (model config))
  /\ (inherited (model config) = false ->
      exists d, getDimension config = Dimension d /\ (0 < d)%Z).
Proof.
  split.
  - intros Hi. unfold getDimension.
    assert (Hnone : table_get (model config) modelDimensions = None).
    { unfold inherited, object_prototype_keys in Hi. cbn [existsb] in Hi.
      repeat (apply orb_true_iff in Hi as [Hi|Hi];
              [apply String.eqb_eq in Hi; rewrite Hi; reflexivity|]).
      discriminate Hi. }
    rewrite Hnone, Hi. reflexivity.
  - intros Hi. unfold getDimension. rewrite Hi.
    destruct (table_get (model config) modelDimensions) as [d|] eqn:Hd.
    + exists d. pose proof (modelDimensions_nonzero _ _ Hd) as Hnz.
      cbn. destruct (Z.eqb_spec d 0); [contradiction|]. split; [reflexivity|].
      clear Hnz n. revert Hd. unfold modelDimensions. cbn [table_get].
      repeat (destruct (String.eqb (model config) _); [intros [= <-]; lia|]).
      discriminate.
    + exists 1536%Z. split; [reflexivity|lia].
Qed.

End ProviderFacts.

Lemma embedBatch_dimension_is_length_witness :
  exists out,
    OpenRouter.embedBatch custom_model ["a"; "bc"] ([] : list OpenRouter.FetchRequest)
    = (Return out, [OpenRouter.embeddings_request custom_model ["a"; "bc"]])
    /\ length out = 2%nat
    /\ forall v, v ∈ out ->
         OpenRouter.dimension v = Z.of_nat (length (OpenRouter.vector v)).
Proof.
  eexists. split; [vm_compute; reflexivity|]. split; [reflexivity|].
  apply (embedBatch_dimension_is_length custom_model ["a"; "bc"]
           ([] : list OpenRouter.FetchRequest)
           [OpenRouter.embeddings_request custom_model ["a"; "bc"]]).
  vm_compute. reflexivity.
Defined.

Lemma embed_first_of_reply_witness :
  @OpenRouter.embed _ empty_http _ custom_model "probe" []
  = (Return None, [OpenRouter.embeddings_request custom_model ["probe"]]).
Proof.
  apply (@embed_first_of_reply _ empty_http _ custom_model "probe" []
           [OpenRouter.embeddings_request custom_model ["probe"]]
           {| OpenRouter.ok := true;
              OpenRouter.status := 200;
              OpenRouter.statusText := "OK";
              OpenRouter.json := Return {| OpenRouter.data := [] |} |}
           {| OpenRouter.data := [] |});
    vm_compute; reflexivity.
Defined.

(** ** Further properties of the filters *)

Section FilterFacts.

Context `{Runtime}.

Lemma obj_set_keys k v (o : JsObject) (x : string) :
  x ∈ map fst (obj_set k v o) <-> x = k \/ x ∈ map fst o.
Proof.
  induction o as [|[k0 v0] o IH]; cbn.
  - rewrite list_elem_of_singleton. split; [auto|]. intros [->|Hin]; [reflexivity|].
    inversion Hin.
  - destruct (String.eqb_spec k k0) as [->|Hne]; cbn; rewrite !elem_of_cons.
    + tauto.
    + rewrite IH. tauto.
Qed.

Lemma obj_set_NoDup k v (o : JsObject) :
  NoDup (map fst o) -> NoDup (map fst (obj_set k v o)).
Proof.
  induction o as [|[k0 v0] o IH]; cbn; intros Hnd.
  - apply NoDup_singleton.
  - apply NoDup_cons in Hnd as [Hk0 Hnd].
    destruct (String.eqb_spec k k0) as [->|Hne]; cbn.
    + apply NoDup_cons. auto.
    + apply NoDup_cons. split; [|apply IH; exact Hnd].
      rewrite obj_set_keys. intros [->|Hin]; [contradiction|contradiction].
Qed.

Lemma where_fold_NoDup (entries acc : JsObject) :
  NoDup (map fst acc) -> NoDup (map fst (fold_left where_step entries acc)).
Proof.
  revert acc. induction entries as [|kv entries IH]; intros acc Hnd; cbn; [exact Hnd|].
  apply IH. unfold where_step. destruct (String.eqb (fst kv) "__proto__");
    [exact Hnd|apply obj_set_NoDup; exact Hnd].
Qed.

Lemma where_fold_get (entries acc : JsObject) (k : string) :
  obj_get k (fold_left where_step entries acc)
  = if String.eqb k "__proto__" then obj_get k acc
    else match obj_get k (rev entries) with
         | Some v => Some (JObj [("$eq", v)])
         | None => obj_get k acc
         end.
Proof.
  revert acc. induction entries as [|[k0 v0] entries IH]; intros acc; cbn [fold_left rev].
  - destruct (String.eqb k "__proto__"); reflexivity.
  - rewrite IH. rewrite obj_get_app. unfold where_step. cbn [fst snd obj_get].
    destruct (String.eqb_spec k "__proto__") as [Hk|Hk].
    + destruct (String.eqb_spec k0 "__proto__") as [Hk0|Hk0]; [reflexivity|].
      rewrite obj_get_set.
      destruct (String.eqb_spec k k0) as [Hkk|_]; [congruence|reflexivity].
    + destruct (obj_get k (rev entries)); [reflexivity|].
      destruct (String.eqb_spec k0 "__proto__") as [Hk0|Hk0].
      * destruct (String.eqb_spec k k0); [congruence|reflexivity].
      * rewrite obj_get_set. destruct (String.eqb k k0); reflexivity.
Qed.

(** X18: the where clause of any filter, read as a mapping.  It has one
    entry per distinct field of the filter and never a field [__proto__];
    every other field of the filter is mapped to the equality test on the
    last value the filter gives it, and no field is added.  In particular
    the empty filter object gives the empty where clause, not an absent
    one. *)
Theorem buildWhereClause_lookup (entries : JsObject) :
  exists clause,
    buildWhereClause (Some entries) = Some clause
    /\ NoDup (map fst clause)
    /\ (entries = [] -> clause = [])
    /\ forall k,
         obj_get k clause
         = if String.eqb k "__proto__" then None
           else match obj_get k (rev entries) with
                | Some v => Some (JObj [("$eq", v)])
                | None => None
                end.
Proof.
  exists (fold_left where_step entries []).
  split; [reflexivity|]. split; [apply where_fold_NoDup; constructor|].
  split; [intros ->; reflexivity|].
  intros k. rewrite where_fold_get. cbn.
  destruct (String.eqb k "__proto__"); [reflexivity|].
  destruct (obj_get k (rev entries)); reflexivity.
Qed.

Lemma split_length (sep : ascii) (s : string) :
  length (split sep s) = S (count_char sep s).
Proof.
  induction s as [|c s IH]; cbn; [reflexivity|].
  destruct (Ascii.eqb c sep); cbn; [rewrite IH; reflexivity|].
  destruct (split sep s) as [|p ps]; cbn in *; [discriminate IH|exact IH].
Qed.

Lemma split_one (sep : ascii) (s a : string) : split sep s = [a] -> s = a.
Proof.
  revert a. induction s as [|c s IH]; intros a; cbn.
  - intros [= <-]. reflexivity.
  - destruct (Ascii.eqb c sep).
    + intros Hs. pose proof (split_length sep s) as Hl.
      injection Hs as _ Hs. rewrite Hs in Hl. discriminate Hl.
    + destruct (split sep s) as [|p ps] eqn:Hs; [intros [= <-]|intros [= <- ->]].
      * pose proof (split_length sep s) as Hl. rewrite Hs in Hl. discriminate Hl.
      * rewrite (IH p eq_refl). reflexivity.
Qed.

Lemma split_two (sep : ascii) (s a b : string) :
  split sep s = [a; b] -> s = a ++ String sep b.
Proof.
  revert a. induction s as [|c s IH]; intros a; cbn; [discriminate|].
  destruct (Ascii.eqb_spec c sep) as [->|Hne].
  - intros [= <- Hs]. rewrite (split_one _ _ _ Hs). reflexivity.
  - destruct (split sep s) as [|p ps] eqn:Hs; [discriminate|].
    intros [= <- ->]. rewrite (IH p eq_refl). reflexivity.
Qed.

(** X19: a filter text that is not JSON gives a filter exactly when it
    holds exactly one [=].  The filter is then the equality of the trimmed
    text before the [=] with the trimmed text after it, the value always
    being a string; with no [=] or with several, there is no filter. *)
Theorem parseFilterExpression_one_equals_sign (filter : string) :
  JSON_parse filter = None ->
  (count_char "=" filter = 1%nat ->
   exists key value,
     filter = key ++ String "=" value
     /\ parseFilterExpression filter
        = Some (JObj [(trim key, JObj [("$eq", JStr (trim value))])]))
  /\ (count_char "=" filter <> 1%nat -> parseFilterExpression filter = None).
Proof.
  intros Hp. unfold parseFilterExpression. rewrite Hp.
  pose proof (split_length "=" filter) as Hl.
  destruct (split "=" filter) as [|a [|b [|c l]]] eqn:Hs; cbn in Hl.
  - discriminate Hl.
  - split; [intros Hc; rewrite Hc in Hl; discriminate Hl|reflexivity].
  - split; [|intros Hc; exfalso; apply Hc; lia].
    intros _. exists a, b. split; [apply split_two; exact Hs|reflexivity].
  - split; [intros Hc; rewrite Hc in Hl; discriminate Hl|reflexivity].
Qed.

End FilterFacts.

Lemma parseFilterExpression_one_equals_sign_witness :
  JSON_parse "age=5" = None
  /\ count_char "=" "age=5" = 1%nat
  /\ (exists key value,
        "age=5" = key ++ String "=" value
        /\ parseFilterExpression "age=5"
           = Some (JObj [(trim key, JObj [("$eq", JStr (trim value))])]))
  /\ count_char "=" "a=b=c" <> 1%nat
  /\ parseFilterExpression "a=b=c" = None.
Proof.
  assert (H1 : JSON_parse "age=5" = None) by (vm_compute; reflexivity).
  assert (H2 : JSON_parse "a=b=c" = None) by (vm_compute; reflexivity).
  assert (H3 : count_char "=" "a=b=c" <> 1%nat) by (cbn; lia).
  split; [exact H1|]. split; [reflexivity|].
  split; [exact (proj1 (parseFilterExpression_one_equals_sign "age=5" H1) eq_refl)|].
  split; [exact H3|].
  exact (proj2 (parseFilterExpression_one_equals_sign "a=b=c" H2) H3).
Defined.

(** ** Errors of [insert] and [delete] *)

Section Errors.

Context {B Col : Type} `{ChromaClient B Col} `{Runtime}.

Implicit Types (this : ChromaDBVectorDatabase B Col) (name : string).

Lemma resolved_call_throws {A} name (f : Col -> Async B A) this e this' :
  bind (getOrCreateCollection name) (fun collection => call (f collection)) this
  = (Throw e, this') ->
  getOrCreateCollection name this = (Throw e, this')
  \/ exists col this1,
       getOrCreateCollection name this = (Return col, this1)
       /\ f col (client this1) = (Throw e, client this')
       /\ collections this' = collections this1.
Proof.
  unfold bind. destruct (getOrCreateCollection name this) as [[col|e0] this1].
  - unfold call. destruct (f col (client this1)) as [r b] eqn:Hf.
    intros [= -> <-]. right. exists col, this1. auto.
  - intros [= <- <-]. left. reflexivity.
Qed.

(** X20: [insert] and [delete] raise no error of their own and wrap none:
    when one of them throws, the error is the very one thrown while
    resolving the collection or the one the client's [add], respectively
    [delete], request threw, and in the latter case the cache is as the
    resolution left it. *)
Theorem insert_delete_errors_are_the_clients name this e this' :
  (forall docs,
      insert name docs this = (Throw e, this') ->
      getOrCreateCollection name this = (Throw e, this')
      \/ exists col this1,
           getOrCreateCollection name this = (Return col, this1)
           /\ collection_add col (add_params docs) (client this1)
              = (Throw e, client this')
           /\ collections this' = collections this1)
  /\ (forall ids,
         delete name ids this = (Throw e, this') ->
         getOrCreateCollection name this = (Throw e, this')
         \/ exists col this1,
              getOrCreateCollection name this = (Return col, this1)
              /\ collection_delete col ids (client this1) = (Throw e, client this')
              /\ collections this' = collections this1).
Proof.
  split.
  - intros docs. apply (resolved_call_throws name
                          (fun collection => collection_add collection (add_params docs))).
  - intros ids. apply (resolved_call_throws name
                         (fun collection => collection_delete collection ids)).
Qed.

End Errors.

(** ** [search]: scores and self-retrieval *)

Section Nearest.

Implicit Types (q : list Q) (rs : list StoredRecord) (l : list (StoredRecord * Q)).











End Nearest.

Section InsertThenQuery.

Implicit Types (db : ChromaDBVectorDatabase Server string) (server : Server).





End InsertThenQuery.

Section SearchScores.

Context {B Col : Type} `{ChromaClient B Col} `{Runtime}.

Implicit Types (this : ChromaDBVectorDatabase B Col) (name : string).


End SearchScores.

Section SelfRetrieval.

Context `{Runtime}.

Implicit Types (db : ChromaDBVectorDatabase Server string).


End SelfRetrieval.


Section SearchClaim.

Context `{Runtime}.


End SearchClaim.


